(** * The joint multilingual summarization task of CALMS

    A shallow embedding of
    [fairseq/examples/summarization/tasks/summarization_from_pretrained_mbart_joint.py]:
    the function [load_langpair_sumdataset] and the methods of
    [SummarizationFromPretrainedMBARTTaskJoint].

    Python values are modelled as the code has them: token sequences are
    lists of dictionary indices ([list Z]), [argparse.Namespace] and the
    task's [datasets] dict are finite maps with string keys, exceptions are
    the left summand of a result type, and the unbounded shard loop
    [for k in itertools.count()] is a fuelled recursion whose fuel is shown
    to suffice. *)

From stdpp Require Import base gmap strings list pretty.
From Stdlib Require Import ZArith Lia Ascii.

Local Open Scope Z_scope.

(** ** Python strings *)

Module Py.

(** [s.startswith(p)] *)
Fixpoint startswith (p s : string) : bool :=
  match p, s with
  | EmptyString, _ => true
  | String a p', String b s' => if decide (a = b) then startswith p' s' else false
  | String _ _, EmptyString => false
  end.

(** [sub in s] for strings: [sub] occurs in [s] as a substring. *)
Fixpoint contains (sub s : string) : bool :=
  startswith sub s ||
  match s with
  | EmptyString => false
  | String _ s' => contains sub s'
  end.

(** [s.split(c)] for a one-character separator [c]; the result is never
    empty. *)
Fixpoint split (c : ascii) (s : string) : list string :=
  match s with
  | EmptyString => [EmptyString]
  | String a s' =>
      if decide (a = c) then EmptyString :: split c s'
      else match split c s' with
           | [] => [String a EmptyString]
           | w :: ws => String a w :: ws
           end
  end.

(** [sep.join(l)] *)
Fixpoint join (sep : string) (l : list string) : string :=
  match l with
  | [] => EmptyString
  | [x] => x
  | x :: l' => x +:+ sep +:+ join sep l'
  end.

(** The scan of [s.replace(old, new)] for a non-empty [old]: [skip] counts
    the characters of a match that are still to be passed over. *)
Fixpoint replace_scan (old new : string) (skip : nat) (s : string) : string :=
  match s with
  | EmptyString => EmptyString
  | String a s' =>
      match skip with
      | S n => replace_scan old new n s'
      | O =>
          if startswith old s
          then new +:+ replace_scan old new (Nat.pred (String.length old)) s'
          else String a (replace_scan old new O s')
      end
  end.

(** An empty [old] matches before every character and at the end. *)
Fixpoint replace_empty (new s : string) : string :=
  match s with
  | EmptyString => new
  | String a s' => new +:+ String a (replace_empty new s')
  end.

(** [s.replace(old, new)] *)
Definition replace (old new s : string) : string :=
  match old with
  | EmptyString => replace_empty new s
  | String _ _ => replace_scan old new O s
  end.

(** [s.endswith("/")] *)
Fixpoint endswith_slash (s : string) : bool :=
  match s with
  | EmptyString => false
  | String a EmptyString => bool_decide (a = "/"%char)
  | String _ s' => endswith_slash s'
  end.

(** [os.path.join(a, b)] on a POSIX system. *)
Definition path_join (a b : string) : string :=
  if startswith "/" b then b
  else if bool_decide (a = EmptyString) || endswith_slash a then a +:+ b
  else a +:+ "/" +:+ b.

(** [str(k)] for a non-negative integer. *)
Definition str_nat (k : nat) : string := pretty k.

End Py.

(** ** Exceptions and dynamically typed values *)

Inductive Exception :=
  | FileNotFoundError
  | AssertionError
  | AttributeError
  | TypeError
  | IndexError
  | ValueError.

Global Instance Exception_eq_dec : EqDecision Exception.
Proof. solve_decision. Defined.

(** The outcome of a Python call: an exception raised, a value returned, or
    a loop that did not finish within the steps it was given. *)
Inductive Result (A : Type) :=
  | Raise (e : Exception)
  | Return (a : A)
  | Unfinished.
Arguments Raise {A} e.
Arguments Return {A} a.
Arguments Unfinished {A}.

Global Instance Result_ret : MRet Result := fun A a => Return a.

Global Instance Result_bind : MBind Result := fun A B f r =>
  match r with
  | Raise e => Raise e
  | Return a => f a
  | Unfinished => Unfinished
  end.

(** [assert b] *)
Definition py_assert (b : bool) : Result unit :=
  if b then Return tt else Raise AssertionError.

(** The values an [argparse.Namespace] of this task holds. *)
Inductive PyVal :=
  | VNone
  | VBool (b : bool)
  | VInt (z : Z)
  | VStr (s : string).

Global Instance PyVal_eq_dec : EqDecision PyVal.
Proof. solve_decision. Defined.

(** Truth value of [v] in [if v:]. *)
Definition truthy (v : PyVal) : bool :=
  match v with
  | VNone => false
  | VBool b => b
  | VInt z => negb (z =? 0)
  | VStr s => negb (bool_decide (s = EmptyString))
  end.

(** [str(v)], as ['{}'.format(v)] prints it. *)
Definition py_str (v : PyVal) : string :=
  match v with
  | VNone => "None"
  | VBool true => "True"
  | VBool false => "False"
  | VInt z => pretty z
  | VStr s => s
  end.

(** ['[{}]'.format(v)]: the symbol of a language-id token. *)
Definition lang_symbol (v : PyVal) : string := "[" +:+ py_str v +:+ "]".

Definition as_str (v : PyVal) : Result string :=
  match v with VStr s => Return s | _ => Raise TypeError end.

(** A value used in integer arithmetic; [bool] is a subclass of [int]. *)
Definition as_int (v : PyVal) : Result Z :=
  match v with
  | VInt z => Return z
  | VBool b => Return (if b then 1 else 0)
  | _ => Raise TypeError
  end.

(** [args.name] *)
Definition attr (ns : gmap string PyVal) (name : string) : Result PyVal :=
  match ns !! name with
  | Some v => Return v
  | None => Raise AttributeError
  end.

(** [getattr(args, name, default)] *)
Definition getattr (ns : gmap string PyVal) (name : string) (default : PyVal) : PyVal :=
  match ns !! name with
  | Some v => v
  | None => default
  end.

(** ** Dictionaries and token datasets of the host framework *)

(** Modelled from the spec: [fairseq.data.Dictionary] is not under src/; a
    vocabulary maps symbols to indices, [index] answering the unknown-word
    index for a symbol that is not an entry (a language-id token is "a
    synthetic vocabulary entry"). *)
Record Dictionary := {
  indices : gmap string Z;
  bos_index : Z;
  pad_index : Z;
  eos_index : Z;
  unk_index : Z
}.

Definition index (d : Dictionary) (sym : string) : Z :=
  match indices d !! sym with
  | Some i => i
  | None => unk_index d
  end.

(** A dataset of token sequences with its [sizes] array. *)
Record TokenDataset := {
  items : list (list Z);
  sizes : list Z
}.

Definition len (d : TokenDataset) : nat := length (items d).

(** Modelled from the spec: the framework's "indexed dataset" is "a binary
    corpus format to store tokenized sequences"; a corpus on disk is the list
    of its sequences, and its sizes are their lengths. *)
Definition indexed (l : list (list Z)) : TokenDataset :=
  {| items := l; sizes := (fun s => Z.of_nat (length s)) <$> l |}.

(** Modelled from the spec: the framework's "token-prepend/append wrappers,
    concatenation/sampling wrappers" and its strip and truncate wrappers are
    not under src/; each is given by what it does to every sequence and to
    the sizes array. *)
Module data.

(** Adds [token] at the end of every sequence. *)
Definition AppendTokenDataset (d : TokenDataset) (token : Z) : TokenDataset :=
  {| items := (fun s => s ++ [token]) <$> items d;
     sizes := (fun n => n + 1) <$> sizes d |}.

(** Adds [token] at the front of every sequence. *)
Definition PrependTokenDataset (d : TokenDataset) (token : Z) : TokenDataset :=
  {| items := (fun s => token :: s) <$> items d;
     sizes := (fun n => n + 1) <$> sizes d |}.

(** Removes the token [id_to_strip] from every sequence; the sizes array is
    the wrapped dataset's. *)
Definition StripTokenDataset (d : TokenDataset) (id_to_strip : Z) : TokenDataset :=
  {| items := (fun s => filter (fun t => t ≠ id_to_strip) s) <$> items d;
     sizes := sizes d |}.

(** The slice [s[:n]], where a negative [n] counts from the end. *)
Definition slice_to (n : Z) (s : list Z) : list Z :=
  if n <? 0 then take (Z.to_nat (Z.of_nat (length s) + n)) s
  else take (Z.to_nat n) s.

(** Cuts every sequence longer than [truncation_length] with the slice
    [item[:truncation_length]]. *)
Definition TruncateDataset (d : TokenDataset) (truncation_length : Z) : TokenDataset :=
  {| items := (fun s => if truncation_length <? Z.of_nat (length s)
                        then slice_to truncation_length s else s) <$> items d;
     sizes := Z.min truncation_length <$> sizes d |}.

(** A dataset repeated [ratio] times. *)
Definition upsample {A} (ratio : Z) (l : list A) : list A :=
  mjoin (replicate (Z.to_nat ratio) l).

(** The datasets one after the other, the i-th one repeated
    [sample_ratios[i]] times. *)
Definition ConcatDataset (datasets : list TokenDataset) (sample_ratios : list Z)
    : TokenDataset :=
  {| items := mjoin (zip_with (fun r d => upsample r (items d)) sample_ratios datasets);
     sizes := mjoin (zip_with (fun r d => upsample r (sizes d)) sample_ratios datasets) |}.

End data.

(** The object built by [LanguagePairDataset(...)]: its constructor's
    arguments. *)
Record LanguagePair := {
  pair_src : TokenDataset;
  pair_src_sizes : list Z;
  pair_src_dict : Dictionary;
  pair_tgt : option TokenDataset;
  pair_tgt_sizes : option (list Z);
  pair_tgt_dict : option Dictionary;
  pair_left_pad_source : PyVal;
  pair_left_pad_target : PyVal;
  pair_max_source_positions : PyVal;
  pair_max_target_positions : PyVal;
  pair_align_dataset : option TokenDataset;
  pair_eos : option Z
}.

Definition LanguagePairDataset (src : TokenDataset) (src_sizes : list Z)
    (src_dict : Dictionary) (tgt : option TokenDataset)
    (tgt_sizes : option (list Z)) (tgt_dict : option Dictionary)
    (left_pad_source left_pad_target : PyVal)
    (max_source_positions max_target_positions : PyVal)
    (align_dataset : option TokenDataset) (eos : option Z) : LanguagePair :=
  {| pair_src := src; pair_src_sizes := src_sizes; pair_src_dict := src_dict;
     pair_tgt := tgt; pair_tgt_sizes := tgt_sizes; pair_tgt_dict := tgt_dict;
     pair_left_pad_source := left_pad_source;
     pair_left_pad_target := left_pad_target;
     pair_max_source_positions := max_source_positions;
     pair_max_target_positions := max_target_positions;
     pair_align_dataset := align_dataset; pair_eos := eos |}.

(** One example of a language-pair dataset: the dict with keys [id],
    [source] and [target]. *)
Record Sample := {
  sample_id : nat;
  source : list Z;
  target : option (list Z)
}.

(** [d[i]] for a language-pair dataset. *)
Definition pair_getitem (d : LanguagePair) (i : nat) : Result Sample :=
  match items (pair_src d) !! i with
  | None => Raise IndexError
  | Some s =>
      match pair_tgt d with
      | None => Return {| sample_id := i; source := s; target := None |}
      | Some t =>
          match items t !! i with
          | None => Raise IndexError
          | Some x => Return {| sample_id := i; source := s; target := Some x |}
          end
      end
  end.

(** The datasets a task registers under a split name. *)
Inductive Dataset :=
  | Pairs (d : LanguagePair)
  | ConcatDataset (datasets : list LanguagePair)
  | SortDataset (dataset : Dataset) (sort_order : list (list Z)).

(** [len(d)] *)
Fixpoint dataset_len (d : Dataset) : nat :=
  match d with
  | Pairs p => len (pair_src p)
  | ConcatDataset ds => sum_list ((fun p => len (pair_src p)) <$> ds)
  | SortDataset d' _ => dataset_len d'
  end.

(** [d.sizes] *)
Fixpoint dataset_sizes (d : Dataset) : list Z :=
  match d with
  | Pairs p => pair_src_sizes p
  | ConcatDataset ds => mjoin (pair_src_sizes <$> ds)
  | SortDataset d' _ => dataset_sizes d'
  end.

(** [ConcatDataset.__getitem__]: the dataset holding index [i], then the
    example inside it. *)
Fixpoint concat_getitem (ds : list LanguagePair) (i : nat) : Result Sample :=
  match ds with
  | [] => Raise IndexError
  | p :: ds' =>
      if decide (i < len (pair_src p))%nat then pair_getitem p i
      else concat_getitem ds' (i - len (pair_src p))
  end.

(** [d[i]]; a [SortDataset] changes the order of iteration, not indexing. *)
Fixpoint getitem (d : Dataset) (i : nat) : Result Sample :=
  match d with
  | Pairs p => pair_getitem p i
  | ConcatDataset ds => concat_getitem ds i
  | SortDataset d' _ => getitem d' i
  end.

(** ** [load_langpair_sumdataset] *)

Section Loader.

(** The corpora on disk: the tokenized sequences stored under each path. *)
Variable fs : gmap string (list (list Z)).

(** Modelled from the spec: [indexed_dataset.dataset_exists] and
    [data_utils.load_indexed_dataset] are not under src/; a corpus exists at
    a path when the disk holds one there, and loading a missing corpus gives
    [None]. *)
Definition dataset_exists (filename : string) : bool :=
  bool_decide (is_Some (fs !! filename)).

Definition load_indexed_dataset (path : string) : option TokenDataset :=
  indexed <$> fs !! path.

(** ['{}.{}-{}.'.format(split, src, tgt)] *)
Definition pair_prefix (split src tgt : string) : string :=
  split +:+ "." +:+ src +:+ "-" +:+ tgt +:+ ".".

Definition split_exists (split src tgt lang data_path : string) : bool :=
  dataset_exists (Py.path_join data_path (pair_prefix split src tgt +:+ lang)).

(** [split + (str(k) if k > 0 else '')] *)
Definition split_k (split : string) (k : nat) : string :=
  split +:+ (if decide (0 < k)%nat then Py.str_nat k else "").

(** The [# infer langcode] step at shard [k]: the prefix of the naming
    direction under which the shard exists. *)
Definition infer_prefix (data_path split src tgt : string) (k : nat) : option string :=
  if split_exists (split_k split k) src tgt src data_path
  then Some (Py.path_join data_path (pair_prefix (split_k split k) src tgt))
  else if split_exists (split_k split k) tgt src src data_path
  then Some (Py.path_join data_path (pair_prefix (split_k split k) tgt src))
  else None.

(** The loop [for k in itertools.count()] from shard [k] on, run for at most
    [fuel] iterations. *)
Fixpoint load_shards (fuel : nat) (data_path split src tgt : string)
    (combine : bool) (k : nat) (src_datasets tgt_datasets : list TokenDataset)
    : Result (list TokenDataset * list TokenDataset) :=
  match fuel with
  | O => Unfinished
  | S fuel' =>
      match infer_prefix data_path split src tgt k with
      | None =>
          if decide (0 < k)%nat then Return (src_datasets, tgt_datasets)
          else Raise FileNotFoundError
      | Some prefix =>
          match load_indexed_dataset (prefix +:+ src) with
          | None => Raise TypeError
          | Some src_dataset =>
              let src_datasets := src_datasets ++ [src_dataset] in
              let tgt_datasets :=
                match load_indexed_dataset (prefix +:+ tgt) with
                | Some tgt_dataset => tgt_datasets ++ [tgt_dataset]
                | None => tgt_datasets
                end in
              if combine
              then load_shards fuel' data_path split src tgt combine (S k)
                     src_datasets tgt_datasets
              else Return (src_datasets, tgt_datasets)
          end
      end
  end.

(** The two corpora of shard [k], when the shard exists: what one
    iteration of the loop appends to [src_datasets] and [tgt_datasets]. *)
Definition shard (data_path split src tgt : string) (k : nat)
    : option (TokenDataset * option TokenDataset) :=
  prefix ← infer_prefix data_path split src tgt k;
  src_dataset ← load_indexed_dataset (prefix +:+ src);
  Some (src_dataset, load_indexed_dataset (prefix +:+ tgt)).

(** The file whose presence makes shard [k] exist. *)
Definition shard_file (data_path split src tgt : string) (k : nat) : string :=
  if split_exists (split_k split k) src tgt src data_path
  then Py.path_join data_path (pair_prefix (split_k split k) src tgt +:+ src)
  else Py.path_join data_path (pair_prefix (split_k split k) tgt src +:+ src).

(** The loop cannot run longer than there are corpora on disk. *)
Definition shard_fuel : nat := S (size fs).

(** Lines 83-93: one shard is used as it is, several are concatenated with
    the first one upsampled. *)
Definition combine_shards (src_datasets tgt_datasets : list TokenDataset)
    (upsample_primary : PyVal) : Result (TokenDataset * option TokenDataset) :=
  match src_datasets with
  | [d] => Return (d, head tgt_datasets)
  | _ =>
      ratio ← as_int upsample_primary;
      let sample_ratios := <[O := ratio]> (replicate (length src_datasets) 1) in
      Return (data.ConcatDataset src_datasets sample_ratios,
              if decide (0 < length tgt_datasets)%nat
              then Some (data.ConcatDataset tgt_datasets sample_ratios)
              else None)
  end.

(** Lines 95-99: [if prepend_bos:]. *)
Definition prepend_bos_tokens (src_dict tgt_dict : Dictionary) (prepend_bos : PyVal)
    (src_dataset : TokenDataset) (tgt_dataset : option TokenDataset)
    : TokenDataset * option TokenDataset :=
  if truthy prepend_bos
  then (data.PrependTokenDataset src_dataset (bos_index src_dict),
        (fun t => data.PrependTokenDataset t (bos_index tgt_dict)) <$> tgt_dataset)
  else (src_dataset, tgt_dataset).

(** Lines 101-110: [if truncate_source:]. *)
Definition truncate (src_dict : Dictionary)
    (truncate_source max_source_positions : PyVal) (append_source_id : bool)
    (src_dataset : TokenDataset) : Result TokenDataset :=
  if truthy truncate_source
  then
    max_source_positions ← as_int max_source_positions;
    let trunc_len :=
      if append_source_id then max_source_positions - 1
      else max_source_positions in
    Return (data.AppendTokenDataset
              (data.TruncateDataset
                 (data.StripTokenDataset src_dataset (eos_index src_dict))
                 (trunc_len - 1))
              (eos_index src_dict))
  else Return src_dataset.

(** Lines 50-110: the source and target token datasets before the
    language-id tokens are added. *)
Definition load_tokens
    (data_path split : string)
    (src : string) (src_dict : Dictionary)
    (tgt : string) (tgt_dict : Dictionary)
    (combine : bool) (upsample_primary max_source_positions prepend_bos
     truncate_source : PyVal)
    (append_source_id : bool) : Result (TokenDataset * option TokenDataset) :=
  '(src_datasets, tgt_datasets) ←
    load_shards shard_fuel data_path split src tgt combine O [] [];
  _ ← py_assert (bool_decide (length src_datasets = length tgt_datasets)
                 || bool_decide (length tgt_datasets = O));
  '(src_dataset, tgt_dataset) ←
    combine_shards src_datasets tgt_datasets upsample_primary;
  let '(src_dataset, tgt_dataset) :=
    prepend_bos_tokens src_dict tgt_dict prepend_bos src_dataset tgt_dataset in
  src_dataset ←
    truncate src_dict truncate_source max_source_positions append_source_id
      src_dataset;
  Return (src_dataset, tgt_dataset).

(** Lines 112-119: [if append_source_id:]. *)
Definition append_lang_ids (src_dict tgt_dict : Dictionary)
    (src_lang tgt_lang : PyVal) (append_source_id : bool) (trg_prepend : PyVal)
    (src_dataset : TokenDataset) (tgt_dataset : option TokenDataset)
    : TokenDataset * option TokenDataset * option Z :=
  if append_source_id
  then (data.AppendTokenDataset src_dataset (index src_dict (lang_symbol src_lang)),
        (fun t =>
           data.AppendTokenDataset
             (if truthy trg_prepend
              then data.PrependTokenDataset t (index tgt_dict (lang_symbol tgt_lang))
              else t)
             (index tgt_dict (lang_symbol tgt_lang))) <$> tgt_dataset,
        Some (index tgt_dict (lang_symbol tgt_lang)))
  else (src_dataset, tgt_dataset, None).

(** Lines 122-126: [if load_alignments:]. *)
Definition load_align (data_path split src tgt : string) (load_alignments : PyVal)
    : option TokenDataset :=
  if truthy load_alignments
  then
    let align_path :=
      Py.path_join data_path (split +:+ ".align." +:+ src +:+ "-" +:+ tgt) in
    if dataset_exists align_path then load_indexed_dataset align_path else None
  else None.

Definition load_langpair_sumdataset
    (data_path split : string)
    (src : string) (src_dict : Dictionary) (src_lang : PyVal)
    (tgt : string) (tgt_dict : Dictionary) (tgt_lang : PyVal)
    (combine : bool) (dataset_impl upsample_primary : PyVal)
    (left_pad_source left_pad_target max_source_positions
     max_target_positions prepend_bos load_alignments truncate_source : PyVal)
    (append_source_id : bool) (trg_prepend : PyVal) : Result LanguagePair :=
  '(src_dataset, tgt_dataset) ←
    load_tokens data_path split src src_dict tgt tgt_dict combine
      upsample_primary max_source_positions prepend_bos truncate_source
      append_source_id;
  let '(src_dataset, tgt_dataset, eos) :=
    append_lang_ids src_dict tgt_dict src_lang tgt_lang append_source_id
      trg_prepend src_dataset tgt_dataset in
  let align_dataset := load_align data_path split src tgt load_alignments in
  Return (LanguagePairDataset
            src_dataset (sizes src_dataset) src_dict
            tgt_dataset (sizes <$> tgt_dataset) (Some tgt_dict)
            left_pad_source left_pad_target
            max_source_positions max_target_positions
            align_dataset eos).

End Loader.

(** ** The task [SummarizationFromPretrainedMBARTTaskJoint] *)

Record Task := {
  args : gmap string PyVal;
  src_dict : Dictionary;
  tgt_dict : Dictionary;
  langs_for_summ : list string;
  datasets : gmap string Dataset
}.

(** [__init__]: the parent class stores [args] and the two dictionaries. *)
Definition init (args : gmap string PyVal) (src_dict tgt_dict : Dictionary)
    : Result Task :=
  langs_for_sum ← attr args "langs_for_sum" ≫= as_str;
  Return {| args := args; src_dict := src_dict; tgt_dict := tgt_dict;
            langs_for_summ := Py.split "," langs_for_sum;
            datasets := ∅ |}.

Section LoadDataset.

Variable fs : gmap string (list (list Z)).

(** [np.random.permutation(n)] under [data_utils.numpy_seed(seed)]. *)
Variable np_random_permutation : Z -> nat -> list Z.

(** [np.random.seed(seed)], which [data_utils.numpy_seed(seed)] calls on
    entering the [with] block: a seed is an integer between 0 and
    [2**32 - 1]. *)
Definition np_random_seed (seed : Z) : Result unit :=
  if bool_decide (0 ≤ seed < 2 ^ 32) then Return tt else Raise ValueError.

(** [lang.split('_')[0]] *)
Definition lang_code (lang : string) : string :=
  default EmptyString (head (Py.split "_" lang)).

(** The body of the loop [for lang in languages]. *)
Definition load_lang (self : Task) (data_path split src tgt : string)
    (combine : bool) (lang : string) : Result LanguagePair :=
  let code := lang_code lang in
  let lang_path := Py.path_join data_path code in
  fix2x ← attr (args self) "fix2x";
  let srclang := if bool_decide (fix2x ≠ VStr "") then fix2x else VStr lang in
  dataset_impl ← attr (args self) "dataset_impl";
  upsample_primary ← attr (args self) "upsample_primary";
  left_pad_source ← attr (args self) "left_pad_source";
  left_pad_target ← attr (args self) "left_pad_target";
  truncate_source ← attr (args self) "truncate_source";
  load_alignments ← attr (args self) "load_alignments";
  load_langpair_sumdataset fs
    lang_path split
    src (src_dict self) srclang
    tgt (tgt_dict self) (VStr lang)
    combine dataset_impl
    upsample_primary
    left_pad_source
    left_pad_target
    (getattr (args self) "max_source_positions" (VInt 1024))
    (getattr (args self) "max_target_positions" (VInt 1024))
    (getattr (args self) "preprend_bos" (VBool false))
    load_alignments
    truncate_source
    true (getattr (args self) "trg_prepend" (VBool false)).

(** The loop [for lang_id, lang_dataset in enumerate(lang_datasets)], from
    index [lang_id] on. *)
Fixpoint register_langs (split : string) (languages : list string)
    (lang_id : nat) (lang_datasets : list LanguagePair)
    (lang_splits : list string) (datasets : gmap string Dataset)
    : Result (list string * gmap string Dataset) :=
  match lang_datasets with
  | [] => Return (lang_splits, datasets)
  | lang_dataset :: rest =>
      match languages !! lang_id with
      | None => Raise IndexError
      | Some lang =>
          let split_name := split +:+ "_" +:+ lang in
          register_langs split languages (S lang_id) rest
            (lang_splits ++ [split_name])
            (<[split_name := Pairs lang_dataset]> datasets)
      end
  end.

Definition load_dataset (self : Task) (split : string) (epoch : Z)
    (combine : bool) : Result Task :=
  data ← attr (args self) "data" ≫= as_str;
  let paths := Py.split ":" data in
  _ ← py_assert (bool_decide (0 < length paths)%nat);
  data_path ←
    match paths !! Z.to_nat ((epoch - 1) `mod` Z.of_nat (length paths)) with
    | Some p => Return p
    | None => Raise IndexError
    end;
  src ← attr (args self) "source_lang" ≫= as_str;
  tgt ← attr (args self) "target_lang" ≫= as_str;
  let languages := langs_for_summ self in
  lang_datasets ← mapM (load_lang self data_path split src tgt combine) languages;
  _ ← py_assert (bool_decide (0 < length lang_datasets)%nat);
  let dataset := ConcatDataset lang_datasets in
  '(lang_splits, datasets) ←
    register_langs split languages O lang_datasets [split] (datasets self);
  valid_subset ← attr (args self) "valid_subset" ≫= as_str;
  let args :=
    if Py.contains split valid_subset
    then <["valid_subset" :=
             VStr (Py.replace split (Py.join "," lang_splits) valid_subset)]>
           (args self)
    else args self in
  seed ← attr args "seed" ≫= as_int;
  _ ← np_random_seed (seed + epoch);
  let shuffle := np_random_permutation (seed + epoch) (dataset_len dataset) in
  let datasets :=
    <[split := SortDataset dataset [shuffle; dataset_sizes dataset]]> datasets in
  let datasets := <[split := dataset]> datasets in
  _ ← getitem dataset O;
  Return {| args := args; src_dict := src_dict self; tgt_dict := tgt_dict self;
            langs_for_summ := langs_for_summ self; datasets := datasets |}.

End LoadDataset.

(** ** Generators and inference datasets *)

Section Generator.

(** The models handed to the generator; the task does not look inside. *)
Variable Model : Type.








End Generator.

(** The loop [for s_t in src_tokens] of [build_dataset_for_inference]. *)
Fixpoint append_lang_id (src_lang_id : Z) (src_tokens source_tokens : list (list Z))
    : list (list Z) :=
  match src_tokens with
  | [] => source_tokens
  | s_t :: rest =>
      append_lang_id src_lang_id rest (source_tokens ++ [s_t ++ [src_lang_id]])
  end.

(** [build_dataset_for_inference(self, src_tokens, src_lengths)] *)
Definition build_dataset_for_inference (self : Task)
    (src_tokens : list (list Z)) (src_lengths : list Z) : Result LanguagePair :=
  doc_lang ← attr (args self) "doc_lang";
  let src_lang_id := index (src_dict self) (lang_symbol doc_lang) in
  let source_tokens := append_lang_id src_lang_id src_tokens [] in
  Return (LanguagePairDataset
            {| items := source_tokens; sizes := src_lengths |} src_lengths
            (src_dict self)
            None None None
            (VBool true) (VBool false) (VInt 1024) (VInt 1024)
            None None).

(** ** A small world to run the task on *)

Module Demo.

Definition dict : Dictionary :=
  {| indices := list_to_map [("<s>", 0); ("<pad>", 1); ("</s>", 2); ("<unk>", 3);
                             ("[en_XX]", 10); ("[de_DE]", 11)];
     bos_index := 0; pad_index := 1; eos_index := 2; unk_index := 3 |}.

(** English has two shards, German one. *)
Definition disk : gmap string (list (list Z)) :=
  list_to_map
    [("data/en/train.doc-sum.doc", [[5; 6; 7; 2]; [8; 2]]);
     ("data/en/train.doc-sum.sum", [[20; 2]; [21; 2]]);
     ("data/en/train1.doc-sum.doc", [[30; 2]]);
     ("data/en/train1.doc-sum.sum", [[31; 2]]);
     ("data/de/train.doc-sum.doc", [[9; 9; 2]]);
     ("data/de/train.doc-sum.sum", [[22; 2]])].

Definition namespace : gmap string PyVal :=
  list_to_map
    [("data", VStr "data"); ("source_lang", VStr "doc"); ("target_lang", VStr "sum");
     ("langs_for_sum", VStr "en_XX,de_DE"); ("fix2x", VStr "");
     ("dataset_impl", VNone); ("upsample_primary", VInt 1);
     ("left_pad_source", VBool true); ("left_pad_target", VBool false);
     ("truncate_source", VBool false); ("load_alignments", VBool false);
     ("valid_subset", VStr "train,valid"); ("seed", VInt 1);
     ("prepend_bos", VBool true);
     ("trg_prepend", VBool false); ("doc_lang", VStr "en_XX");
     ("sum_lang", VStr "de_DE")].

(** A stand-in for numpy's generator: the indices in reverse. *)
Definition permutation (seed : Z) (n : nat) : list Z :=
  rev (Z.of_nat <$> seq 0 n).

Definition task : Task :=
  {| args := namespace; src_dict := dict; tgt_dict := dict;
     langs_for_summ := ["en_XX"; "de_DE"]; datasets := ∅ |}.

(** A split whose name overlaps itself inside [valid_subset]. *)
Definition overlap_disk : gmap string (list (list Z)) :=
  list_to_map
    [("data/en/aa.doc-sum.doc", [[5; 2]]);
     ("data/en/aa.doc-sum.sum", [[6; 2]])].

Definition overlap_task : Task :=
  {| args := <["valid_subset" := VStr "aaa"]> namespace;
     src_dict := dict; tgt_dict := dict;
     langs_for_summ := ["en_XX"]; datasets := ∅ |}.

End Demo.

(** * Properties *)

(** ** The result monad *)

Lemma bind_Return {A B} (r : Result A) (f : A -> Result B) (b : B) :
  r ≫= f = Return b ↔ ∃ a, r = Return a ∧ f a = Return b.
Proof.
  split.
  - destruct r as [e|a|]; simpl; try discriminate. eauto.
  - intros (a & -> & Hf). exact Hf.
Qed.

Lemma bind_Raise {A B} (r : Result A) (f : A -> Result B) (e : Exception) :
  r ≫= f = Raise e ↔ r = Raise e ∨ ∃ a, r = Return a ∧ f a = Raise e.
Proof.
  split.
  - destruct r as [e'|a|]; simpl; intros H; try discriminate;
      [injection H as ->; by left | right; by exists a].
  - intros [-> | (a & -> & Hf)]; [reflexivity | exact Hf].
Qed.

Lemma bind_Unfinished {A B} (r : Result A) (f : A -> Result B) :
  r ≫= f = Unfinished ↔ r = Unfinished ∨ ∃ a, r = Return a ∧ f a = Unfinished.
Proof.
  split.
  - destruct r as [e'|a|]; simpl; intros H; try discriminate;
      [right; by exists a | by left].
  - intros [-> | (a & -> & Hf)]; [reflexivity | exact Hf].
Qed.

Lemma py_assert_Return (b : bool) (u : unit) : py_assert b = Return u ↔ b = true.
Proof. destruct b, u; simpl; split; congruence. Qed.

Lemma attr_Return (ns : gmap string PyVal) (name : string) (v : PyVal) :
  attr ns name = Return v ↔ ns !! name = Some v.
Proof. unfold attr. destruct (ns !! name); split; congruence. Qed.

Lemma as_str_Return (v : PyVal) (s : string) : as_str v = Return s ↔ v = VStr s.
Proof. destruct v; simpl; split; congruence. Qed.

Lemma mapM_Return {A B} (f : A -> Result B) (l : list A) (k : list B) :
  mapM f l = Return k ↔ Forall2 (fun x y => f x = Return y) l k.
Proof.
  revert k. induction l as [|x l IH]; intros k; simpl.
  - split.
    + intros [= <-]. constructor.
    + intros H. inversion H. reflexivity.
  - rewrite bind_Return. split.
    + intros (y & Hy & Hk). apply bind_Return in Hk as (k' & Hk' & [= <-]).
      constructor; [exact Hy | by apply IH].
    + intros H. inversion H as [|? y ? k' Hy Hk']; subst.
      exists y. split; [exact Hy|]. apply bind_Return. exists k'.
      split; [by apply IH | reflexivity].
Qed.

(** ** Inference datasets *)

Lemma append_lang_id_fmap (src_lang_id : Z) (src_tokens source_tokens : list (list Z)) :
  append_lang_id src_lang_id src_tokens source_tokens
  = source_tokens ++ ((fun s_t => s_t ++ [src_lang_id]) <$> src_tokens).
Proof.
  revert source_tokens.
  induction src_tokens as [|s_t rest IH]; intros source_tokens; simpl.
  - by rewrite app_nil_r.
  - rewrite IH. by rewrite <- app_assoc.
Qed.

(** C5: [build_dataset_for_inference] returns a language-pair dataset with
    as many source sequences as it was given, the i-th one being the i-th
    input sequence followed by exactly one token: the entry of the symbol
    ['[' + str(doc_lang) + ']'] in the source dictionary, or the unknown-word
    index when the dictionary has no such entry. The dataset has no target
    side. *)
Theorem build_dataset_for_inference_appends_doc_lang
    (self : Task) (src_tokens : list (list Z)) (src_lengths : list Z)
    (doc_lang : PyVal) :
  args self !! "doc_lang" = Some doc_lang →
  ∃ d : LanguagePair,
    build_dataset_for_inference self src_tokens src_lengths = Return d
    ∧ length (items (pair_src d)) = length src_tokens
    ∧ (∀ i : nat,
         items (pair_src d) !! i
         = (fun s_t =>
              s_t ++ [default (unk_index (src_dict self))
                        (indices (src_dict self)
                         !! ("[" +:+ match doc_lang with
                                     | VStr lang => lang
                                     | VNone => "None"
                                     | VBool true => "True"
                                     | VBool false => "False"
                                     | VInt z => pretty z
                                     end +:+ "]"))])
             <$> src_tokens !! i)
    ∧ pair_tgt d = None.
Proof.
  intros Hdoc. unfold build_dataset_for_inference, attr. rewrite Hdoc. simpl.
  eexists. split; [reflexivity|]. simpl.
  rewrite append_lang_id_fmap. simpl.
  split; [by rewrite length_fmap|]. split; [|reflexivity].
  intros i. rewrite list_lookup_fmap.
  by destruct doc_lang as [|[]|z|lang].
Qed.

Lemma build_dataset_for_inference_appends_doc_lang_witness :
  ∃ d : LanguagePair,
    build_dataset_for_inference Demo.task [[5; 6; 2]; [7; 2]] [3; 2] = Return d
    ∧ length (items (pair_src d)) = 2%nat
    ∧ (∀ i : nat,
         items (pair_src d) !! i
         = (fun s_t =>
              s_t ++ [default (unk_index (src_dict Demo.task))
                        (indices (src_dict Demo.task)
                         !! ("[" +:+ match VStr "en_XX" with
                                     | VStr lang => lang
                                     | VNone => "None"
                                     | VBool true => "True"
                                     | VBool false => "False"
                                     | VInt z => pretty z
                                     end +:+ "]"))])
             <$> [[5; 6; 2]; [7; 2]] !! i)
    ∧ pair_tgt d = None.
Proof.
  apply (build_dataset_for_inference_appends_doc_lang
           Demo.task [[5; 6; 2]; [7; 2]] [3; 2] (VStr "en_XX")).
  reflexivity.
Defined.

Example build_dataset_for_inference_demo :
  (d ← build_dataset_for_inference Demo.task [[5; 6; 2]; [7; 2]] [3; 2];
   Return (items (pair_src d)))
  = Return [[5; 6; 2; 10]; [7; 2; 10]].
Proof. reflexivity. Qed.

(** ** Token wrappers *)

Lemma truncate_item_nonneg (n : Z) (s : list Z) :
  0 ≤ n →
  (if n <? Z.of_nat (length s) then data.slice_to n s else s) = take (Z.to_nat n) s.
Proof.
  intros Hn. unfold data.slice_to.
  destruct (Z.ltb_spec n (Z.of_nat (length s))) as [Hlt|Hge].
  - destruct (Z.ltb_spec n 0); [lia | reflexivity].
  - rewrite take_ge; [reflexivity | lia].
Qed.

Lemma TruncateDataset_items_nonneg (d : TokenDataset) (n : Z) :
  0 ≤ n →
  items (data.TruncateDataset d n) = take (Z.to_nat n) <$> items d.
Proof.
  intros Hn. simpl. apply list_fmap_ext. intros i s _.
  by apply truncate_item_nonneg.
Qed.

Lemma length_filter_le {A} (P : A -> Prop) `{∀ x, Decision (P x)} (l : list A) :
  (length (filter P l) ≤ length l)%nat.
Proof.
  induction l as [|x l IH]; simpl; [lia|].
  rewrite filter_cons. destruct (decide (P x)); simpl; lia.
Qed.

(** ** The stages of [load_langpair_sumdataset] *)

Section LoaderFacts.

Variable fs : gmap string (list (list Z)).

Lemma truncate_false (src_dict : Dictionary) (truncate_source msp : PyVal)
    (append_source_id : bool) (d : TokenDataset) :
  truthy truncate_source = false →
  truncate src_dict truncate_source msp append_source_id d = Return d.
Proof. intros H. unfold truncate. by rewrite H. Qed.

Lemma truncate_true (src_dict : Dictionary) (truncate_source : PyVal) (msp : Z)
    (append_source_id : bool) (d : TokenDataset) :
  truthy truncate_source = true →
  truncate src_dict truncate_source (VInt msp) append_source_id d
  = Return (data.AppendTokenDataset
              (data.TruncateDataset
                 (data.StripTokenDataset d (eos_index src_dict))
                 ((if append_source_id then msp - 1 else msp) - 1))
              (eos_index src_dict)).
Proof. intros H. unfold truncate. by rewrite H. Qed.

(** The token datasets before truncation: a run without [truncate_source]
    succeeds whenever the truncating run does, and the truncating run wraps
    its source dataset. *)
Lemma load_tokens_truncated
    (data_path split src : string) (src_dict : Dictionary)
    (tgt : string) (tgt_dict : Dictionary) (combine : bool)
    (upsample_primary prepend_bos truncate_source : PyVal) (msp : Z)
    (append_source_id : bool) (s : TokenDataset) (t : option TokenDataset) :
  truthy truncate_source = true →
  load_tokens fs data_path split src src_dict tgt tgt_dict combine
    upsample_primary (VInt msp) prepend_bos truncate_source append_source_id
  = Return (s, t) →
  ∃ s0 : TokenDataset,
    load_tokens fs data_path split src src_dict tgt tgt_dict combine
      upsample_primary (VInt msp) prepend_bos (VBool false) false
    = Return (s0, t)
    ∧ s = data.AppendTokenDataset
            (data.TruncateDataset
               (data.StripTokenDataset s0 (eos_index src_dict))
               ((if append_source_id then msp - 1 else msp) - 1))
            (eos_index src_dict).
Proof.
  intros Htr. unfold load_tokens.
  destruct (load_shards _ _ _ _ _ _ _ _ _ _) as [e|[srcs tgts]|]; simpl;
    try discriminate.
  destruct (py_assert _) as [e|[]|]; simpl; try discriminate.
  destruct (combine_shards _ _ _) as [e|[s1 t1]|]; simpl; try discriminate.
  destruct (prepend_bos_tokens _ _ _ _ _) as [s2 t2].
  rewrite truncate_true by exact Htr. simpl. intros [= <- <-].
  exists s2. by split.
Qed.

End LoaderFacts.

(** ** Truncated sources *)

(** C9, as the code has it: with [truncate_source] and [append_source_id]
    both set and [max_source_positions] at least 2, every source sequence of
    the dataset is a sequence of the dataset loaded without truncation and
    without language ids, with the end-of-sentence token stripped, cut to
    [max_source_positions - 2] tokens, followed by the end-of-sentence token
    and then the source language-id token; so its length is at most
    [max_source_positions]. *)
Theorem truncated_sources_fit
    (fs : gmap string (list (list Z))) (data_path split : string)
    (src : string) (src_dict : Dictionary) (src_lang : PyVal)
    (tgt : string) (tgt_dict : Dictionary) (tgt_lang : PyVal)
    (combine : bool) (dataset_impl upsample_primary : PyVal)
    (left_pad_source left_pad_target : PyVal) (msp : Z)
    (max_target_positions prepend_bos load_alignments truncate_source
     trg_prepend : PyVal) (d : LanguagePair) :
  truthy truncate_source = true →
  2 ≤ msp →
  load_langpair_sumdataset fs data_path split src src_dict src_lang
    tgt tgt_dict tgt_lang combine dataset_impl upsample_primary
    left_pad_source left_pad_target (VInt msp) max_target_positions
    prepend_bos load_alignments truncate_source true trg_prepend
  = Return d →
  ∃ d0 : LanguagePair,
    load_langpair_sumdataset fs data_path split src src_dict src_lang
      tgt tgt_dict tgt_lang combine dataset_impl upsample_primary
      left_pad_source left_pad_target (VInt msp) max_target_positions
      prepend_bos load_alignments (VBool false) false trg_prepend
    = Return d0
    ∧ items (pair_src d)
      = (fun s =>
           take (Z.to_nat (msp - 2)) (filter (fun t => t ≠ eos_index src_dict) s)
           ++ [eos_index src_dict; index src_dict (lang_symbol src_lang)])
          <$> items (pair_src d0)
    ∧ Forall (fun s => Z.of_nat (length s) ≤ msp) (items (pair_src d)).
Proof.
  intros Htr Hmsp. unfold load_langpair_sumdataset.
  destruct (load_tokens fs data_path split src src_dict tgt tgt_dict combine
              upsample_primary (VInt msp) prepend_bos truncate_source true)
    as [e|[s t]|] eqn:Hload; simpl; try discriminate.
  apply load_tokens_truncated in Hload as (s0 & Hload0 & ->); [|exact Htr].
  rewrite Hload0. simpl. intros [= <-].
  eexists. split; [reflexivity|]. cbn [pair_src LanguagePairDataset].
  assert (Hitems :
    items (data.AppendTokenDataset
             (data.AppendTokenDataset
                (data.TruncateDataset
                   (data.StripTokenDataset s0 (eos_index src_dict))
                   (msp - 1 - 1))
                (eos_index src_dict))
             (index src_dict (lang_symbol src_lang)))
    = (fun s =>
         take (Z.to_nat (msp - 2)) (filter (fun t => t ≠ eos_index src_dict) s)
         ++ [eos_index src_dict; index src_dict (lang_symbol src_lang)])
        <$> items s0).
  { cbn [items data.AppendTokenDataset].
    rewrite TruncateDataset_items_nonneg by lia.
    cbn [items data.StripTokenDataset].
    rewrite <- !list_fmap_compose. apply list_fmap_ext. intros i s _. simpl.
    replace (msp - 1 - 1) with (msp - 2) by lia.
    by rewrite <- app_assoc. }
  split; [exact Hitems|]. rewrite Hitems.
  apply Forall_fmap, Forall_forall. intros s _. simpl.
  rewrite length_app, length_take. simpl. lia.
Qed.

Lemma truncated_sources_fit_witness :
  ∃ d : LanguagePair,
    load_langpair_sumdataset Demo.disk "data/en" "train" "doc" Demo.dict
      (VStr "en_XX") "sum" Demo.dict (VStr "en_XX") true VNone (VInt 1)
      (VBool true) (VBool false) (VInt 4) (VInt 1024)
      (VBool false) (VBool false) (VBool true) true (VBool false)
    = Return d
    ∧ ∃ d0 : LanguagePair,
        load_langpair_sumdataset Demo.disk "data/en" "train" "doc" Demo.dict
          (VStr "en_XX") "sum" Demo.dict (VStr "en_XX") true VNone (VInt 1)
          (VBool true) (VBool false) (VInt 4) (VInt 1024)
          (VBool false) (VBool false) (VBool false) false (VBool false)
        = Return d0
        ∧ items (pair_src d)
          = (fun s =>
               take (Z.to_nat (4 - 2))
                 (filter (fun t => t ≠ eos_index Demo.dict) s)
               ++ [eos_index Demo.dict;
                   index Demo.dict (lang_symbol (VStr "en_XX"))])
              <$> items (pair_src d0)
        ∧ Forall (fun s => Z.of_nat (length s) ≤ 4) (items (pair_src d)).
Proof.
  eexists. split; [vm_compute; reflexivity|].
  eapply (truncated_sources_fit Demo.disk "data/en" "train" "doc" Demo.dict
            (VStr "en_XX") "sum" Demo.dict (VStr "en_XX") true VNone (VInt 1)
            (VBool true) (VBool false) 4 (VInt 1024)
            (VBool false) (VBool false) (VBool true) (VBool false)).
  - reflexivity.
  - lia.
  - vm_compute. reflexivity.
Defined.

Example truncated_sources_demo :
  (d ← load_langpair_sumdataset Demo.disk "data/en" "train" "doc" Demo.dict
         (VStr "en_XX") "sum" Demo.dict (VStr "en_XX") true VNone (VInt 1)
         (VBool true) (VBool false) (VInt 4) (VInt 1024)
         (VBool false) (VBool false) (VBool true) true (VBool false);
   Return (items (pair_src d)))
  = Return [[5; 6; 2; 10]; [8; 2; 10]; [30; 2; 10]].
Proof. vm_compute. reflexivity. Qed.

(** C9 as stated fails when [max_source_positions] is below 2: the two
    appended tokens alone exceed it. With [max_source_positions = 1] the
    German document [9 9 2] becomes [9 2 11], of length 3. *)
Lemma truncated_source_exceeds_one :
  ∃ (d : LanguagePair) (s : list Z),
    truthy (VBool true) = true
    ∧ load_langpair_sumdataset Demo.disk "data/de" "train" "doc" Demo.dict
        (VStr "de_DE") "sum" Demo.dict (VStr "de_DE") false VNone (VInt 1)
        (VBool true) (VBool false) (VInt 1) (VInt 1024)
        (VBool false) (VBool false) (VBool true) true (VBool false)
      = Return d
    ∧ s ∈ items (pair_src d)
    ∧ ¬ Z.of_nat (length s) ≤ 1.
Proof.
  eexists _, [9; 2; 11]. split; [reflexivity|].
  split; [vm_compute; reflexivity|].
  split; [simpl; apply list_elem_of_here | simpl; lia].
Qed.

(** ** The bookkeeping of [load_dataset] *)

Lemma register_langs_Return (split : string) (languages : list string)
    (lang_datasets : list LanguagePair) :
  ∀ (lang_id : nat) (lang_splits : list string) (datasets : gmap string Dataset),
    (lang_id + length lang_datasets ≤ length languages)%nat →
    register_langs split languages lang_id lang_datasets lang_splits datasets
    = Return
        (lang_splits
         ++ ((fun lang => split +:+ "_" +:+ lang)
               <$> take (length lang_datasets) (drop lang_id languages)),
         foldl (fun m p => <[split +:+ "_" +:+ p.1 := Pairs p.2]> m) datasets
           (zip (drop lang_id languages) lang_datasets)).
Proof.
  induction lang_datasets as [|d rest IH]; intros lang_id lang_splits datasets Hlen.
  - simpl. rewrite app_nil_r. by rewrite zip_with_nil_r.
  - simpl in Hlen. simpl.
    destruct (languages !! lang_id) as [lang|] eqn:Hlang.
    2:{ apply lookup_ge_None in Hlang. lia. }
    rewrite IH by lia. rewrite (drop_S _ _ _ Hlang). simpl.
    by rewrite <- app_assoc.
Qed.

(** What a returning call of [load_dataset] has done. *)
Lemma load_dataset_Return
    (fs : gmap string (list (list Z))) (permutation : Z -> nat -> list Z)
    (self : Task) (split : string) (epoch : Z) (combine : bool) (self' : Task) :
  load_dataset fs permutation self split epoch combine = Return self' →
  ∃ (data data_path src tgt valid_subset : string)
    (lang_datasets : list LanguagePair),
    args self !! "data" = Some (VStr data)
    ∧ Py.split ":" data
        !! Z.to_nat ((epoch - 1) `mod` Z.of_nat (length (Py.split ":" data)))
      = Some data_path
    ∧ args self !! "source_lang" = Some (VStr src)
    ∧ args self !! "target_lang" = Some (VStr tgt)
    ∧ Forall2
        (fun lang d =>
           load_lang fs self data_path split src tgt combine lang = Return d)
        (langs_for_summ self) lang_datasets
    ∧ (0 < length lang_datasets)%nat
    ∧ args self !! "valid_subset" = Some (VStr valid_subset)
    ∧ datasets self'
      = <[split := ConcatDataset lang_datasets]>
          (foldl (fun m p => <[split +:+ "_" +:+ p.1 := Pairs p.2]> m)
             (datasets self) (zip (langs_for_summ self) lang_datasets))
    ∧ args self'
      = (if Py.contains split valid_subset
         then <["valid_subset" :=
                  VStr (Py.replace split
                          (Py.join ","
                             (split :: ((fun lang => split +:+ "_" +:+ lang)
                                          <$> langs_for_summ self)))
                          valid_subset)]> (args self)
         else args self)
    ∧ src_dict self' = src_dict self
    ∧ tgt_dict self' = tgt_dict self
    ∧ langs_for_summ self' = langs_for_summ self.
Proof.
  unfold load_dataset. intros H.
  apply bind_Return in H as (data & Hdata & H).
  apply bind_Return in Hdata as (vdata & Hvdata & Hdata).
  apply attr_Return in Hvdata. apply as_str_Return in Hdata as ->.
  apply bind_Return in H as ([] & _ & H).
  apply bind_Return in H as (data_path & Hpath & H).
  apply bind_Return in H as (src & Hsrc & H).
  apply bind_Return in Hsrc as (vsrc & Hvsrc & Hsrc).
  apply attr_Return in Hvsrc. apply as_str_Return in Hsrc as ->.
  apply bind_Return in H as (tgt & Htgt & H).
  apply bind_Return in Htgt as (vtgt & Hvtgt & Htgt).
  apply attr_Return in Hvtgt. apply as_str_Return in Htgt as ->.
  apply bind_Return in H as (lang_datasets & Hlangs & H).
  apply mapM_Return in Hlangs.
  apply bind_Return in H as ([] & Hsome & H).
  apply py_assert_Return, bool_decide_eq_true in Hsome.
  rewrite register_langs_Return in H
    by (simpl; rewrite (Forall2_length _ _ _ Hlangs); lia).
  simpl in H.
  apply bind_Return in H as (valid_subset & Hvalid & H).
  apply bind_Return in Hvalid as (vvalid & Hvvalid & Hvalid).
  apply attr_Return in Hvvalid. apply as_str_Return in Hvalid as ->.
  apply bind_Return in H as (seed & _ & H).
  apply bind_Return in H as ([] & _ & H).
  apply bind_Return in H as (sample & _ & H).
  injection H as <-. simpl.
  exists data, data_path, src, tgt, valid_subset, lang_datasets.
  rewrite drop_0, <- (Forall2_length _ _ _ Hlangs), firstn_all.
  rewrite insert_insert_eq.
  destruct (Py.split ":" data !! _) as [p|] eqn:Hp; [|discriminate].
  injection Hpath as ->.
  repeat split; try done.
  by rewrite (Forall2_length _ _ _ Hlangs).
Qed.

(** ** Per-language datasets *)

Lemma load_langpair_sumdataset_Return
    (fs : gmap string (list (list Z))) (data_path split : string)
    (src : string) (src_dict : Dictionary) (src_lang : PyVal)
    (tgt : string) (tgt_dict : Dictionary) (tgt_lang : PyVal)
    (combine : bool) (dataset_impl upsample_primary : PyVal)
    (left_pad_source left_pad_target max_source_positions
     max_target_positions prepend_bos load_alignments truncate_source : PyVal)
    (append_source_id : bool) (trg_prepend : PyVal) (d : LanguagePair) :
  load_langpair_sumdataset fs data_path split src src_dict src_lang
    tgt tgt_dict tgt_lang combine dataset_impl upsample_primary
    left_pad_source left_pad_target max_source_positions max_target_positions
    prepend_bos load_alignments truncate_source append_source_id trg_prepend
  = Return d →
  ∃ (s0 : TokenDataset) (t0 : option TokenDataset),
    load_tokens fs data_path split src src_dict tgt tgt_dict combine
      upsample_primary max_source_positions prepend_bos truncate_source
      append_source_id
    = Return (s0, t0)
    ∧ (pair_src d, pair_tgt d, pair_eos d)
      = append_lang_ids src_dict tgt_dict src_lang tgt_lang append_source_id
          trg_prepend s0 t0.
Proof.
  unfold load_langpair_sumdataset.
  destruct (load_tokens _ _ _ _ _ _ _ _ _ _ _ _ _) as [e|[s0 t0]|];
    simpl; try discriminate.
  destruct (append_lang_ids _ _ _ _ _ _ _ _) as [[s1 t1] eos] eqn:Hids.
  intros [= <-]. exists s0, t0. by split.
Qed.

Lemma load_lang_Return
    (fs : gmap string (list (list Z))) (self : Task)
    (data_path split src tgt : string) (combine : bool) (lang : string)
    (d : LanguagePair) :
  load_lang fs self data_path split src tgt combine lang = Return d →
  ∃ fix2x dataset_impl upsample_primary left_pad_source left_pad_target
    truncate_source load_alignments : PyVal,
    args self !! "fix2x" = Some fix2x
    ∧ args self !! "upsample_primary" = Some upsample_primary
    ∧ args self !! "truncate_source" = Some truncate_source
    ∧ load_langpair_sumdataset fs
        (Py.path_join data_path (lang_code lang)) split
        src (src_dict self)
        (if bool_decide (fix2x ≠ VStr "") then fix2x else VStr lang)
        tgt (tgt_dict self) (VStr lang)
        combine dataset_impl upsample_primary left_pad_source left_pad_target
        (getattr (args self) "max_source_positions" (VInt 1024))
        (getattr (args self) "max_target_positions" (VInt 1024))
        (getattr (args self) "preprend_bos" (VBool false))
        load_alignments truncate_source
        true (getattr (args self) "trg_prepend" (VBool false))
      = Return d.
Proof.
  unfold load_lang. intros H.
  apply bind_Return in H as (fix2x & Hfix & H). apply attr_Return in Hfix.
  apply bind_Return in H as (impl & _ & H).
  apply bind_Return in H as (up & Hup & H). apply attr_Return in Hup.
  apply bind_Return in H as (lps & _ & H).
  apply bind_Return in H as (lpt & _ & H).
  apply bind_Return in H as (trunc & Htrunc & H). apply attr_Return in Htrunc.
  apply bind_Return in H as (align & _ & H).
  by exists fix2x, impl, up, lps, lpt, trunc, align.
Qed.

Lemma append_lang_ids_true (src_dict tgt_dict : Dictionary)
    (src_lang tgt_lang trg_prepend : PyVal)
    (s0 s : TokenDataset) (t0 t : option TokenDataset) (eos : option Z) :
  (s, t, eos)
  = append_lang_ids src_dict tgt_dict src_lang tgt_lang true trg_prepend s0 t0 →
  items s = (fun x => x ++ [index src_dict (lang_symbol src_lang)]) <$> items s0
  ∧ items <$> t
    = (fun t1 =>
         (fun x =>
            (if truthy trg_prepend
             then [index tgt_dict (lang_symbol tgt_lang)] else [])
            ++ x ++ [index tgt_dict (lang_symbol tgt_lang)]) <$> items t1) <$> t0
  ∧ eos = Some (index tgt_dict (lang_symbol tgt_lang)).
Proof.
  unfold append_lang_ids. intros [= -> -> ->].
  split; [reflexivity|]. split; [|reflexivity].
  destruct t0 as [t1|]; [|reflexivity]. simpl. f_equal.
  destruct (truthy trg_prepend); simpl.
  - rewrite <- list_fmap_compose. by apply list_fmap_ext.
  - by apply list_fmap_ext.
Qed.

(** C1: after [load_dataset] returns, the dataset registered for the split is
    the concatenation of one dataset per language of [langs_for_summ]. In the
    dataset of [lang], every source sequence is a sequence of the token
    dataset loaded for [lang] followed by the index, in the source
    dictionary, of the symbol ['[' + srclang + ']'], where [srclang] is
    [args.fix2x] unless that is the empty string, and [lang] then; every
    target sequence is a loaded target sequence followed by the index of
    ['[' + lang + ']'] in the target dictionary, and also preceded by it when
    [args.trg_prepend] is [True], but not when it is [False] or absent; the
    dataset's eos is that index. The index of a symbol is its entry in the
    dictionary, or the unknown-word index when it has none. *)
Theorem load_dataset_adds_language_ids
    (fs : gmap string (list (list Z))) (permutation : Z -> nat -> list Z)
    (self : Task) (split : string) (epoch : Z) (combine : bool) (self' : Task) :
  load_dataset fs permutation self split epoch combine = Return self' →
  ∃ (fix2x upsample_primary truncate_source : PyVal)
    (data_path src tgt : string) (lang_datasets : list LanguagePair),
    args self !! "fix2x" = Some fix2x
    ∧ datasets self' !! split = Some (ConcatDataset lang_datasets)
    ∧ Forall2
        (fun lang d =>
           let src_symbol :=
             match fix2x with
             | VStr "" => "[" +:+ lang +:+ "]"
             | VStr srclang => "[" +:+ srclang +:+ "]"
             | VNone => "[None]"
             | VBool true => "[True]"
             | VBool false => "[False]"
             | VInt z => "[" +:+ pretty z +:+ "]"
             end in
           let src_id :=
             default (unk_index (src_dict self))
               (indices (src_dict self) !! src_symbol) in
           let tgt_id :=
             default (unk_index (tgt_dict self))
               (indices (tgt_dict self) !! ("[" +:+ lang +:+ "]")) in
           ∃ (s0 : TokenDataset) (t0 : option TokenDataset),
             load_tokens fs (Py.path_join data_path (lang_code lang)) split
               src (src_dict self) tgt (tgt_dict self) combine
               upsample_primary
               (getattr (args self) "max_source_positions" (VInt 1024))
               (getattr (args self) "preprend_bos" (VBool false))
               truncate_source true
             = Return (s0, t0)
             ∧ items (pair_src d) = (fun x => x ++ [src_id]) <$> items s0
             ∧ (args self !! "trg_prepend" = Some (VBool true) →
                items <$> pair_tgt d
                = (fun t1 => (fun x => tgt_id :: x ++ [tgt_id]) <$> items t1)
                    <$> t0)
             ∧ (args self !! "trg_prepend" = Some (VBool false)
                ∨ args self !! "trg_prepend" = None →
                items <$> pair_tgt d
                = (fun t1 => (fun x => x ++ [tgt_id]) <$> items t1) <$> t0)
             ∧ pair_eos d = Some tgt_id)
        (langs_for_summ self) lang_datasets.
Proof.
  intros H.
  apply load_dataset_Return in H
    as (data & data_path & src & tgt & valid_subset & lang_datasets
        & _ & _ & _ & _ & Hlangs & Hsome & _ & Hdatasets & _).
  pose proof Hlangs as Hfirst.
  destruct Hfirst as [|lang d langs ds Hlang _]; [simpl in Hsome; lia|].
  apply load_lang_Return in Hlang
    as (fix2x & _ & up & _ & _ & trunc & _ & Hfix & Hup & Htrunc & _).
  exists fix2x, up, trunc, data_path, src, tgt.
  eexists. split; [exact Hfix|].
  split; [by rewrite Hdatasets, lookup_insert_eq|].
  eapply Forall2_impl; [exact Hlangs|].
  intros lang' d' Hlang'. simpl.
  apply load_lang_Return in Hlang'
    as (fix2x' & impl' & up' & lps' & lpt' & trunc' & align'
        & Hfix' & Hup' & Htrunc' & Hload).
  rewrite Hfix in Hfix'. injection Hfix' as <-.
  rewrite Hup in Hup'. injection Hup' as <-.
  rewrite Htrunc in Htrunc'. injection Htrunc' as <-.
  apply load_langpair_sumdataset_Return in Hload as (s0 & t0 & Htokens & Hids).
  apply append_lang_ids_true in Hids as (Hsrc & Htgt & Heos).
  exists s0, t0. split; [exact Htokens|].
  assert (Hsym :
    lang_symbol (if bool_decide (fix2x ≠ VStr "") then fix2x else VStr lang')
    = match fix2x with
      | VStr "" => "[" +:+ lang' +:+ "]"
      | VStr srclang => "[" +:+ srclang +:+ "]"
      | VNone => "[None]"
      | VBool true => "[True]"
      | VBool false => "[False]"
      | VInt z => "[" +:+ pretty z +:+ "]"
      end).
  { destruct fix2x as [|[]|z|[|c f]]; done. }
  rewrite Hsym in Hsrc. split; [exact Hsrc|].
  split; [|split; [|exact Heos]].
  - intros Hflag. rewrite Htgt. unfold getattr. rewrite Hflag. reflexivity.
  - intros Hflag. rewrite Htgt. unfold getattr.
    destruct Hflag as [-> | ->]; reflexivity.
Qed.

Lemma load_dataset_adds_language_ids_witness :
  ∃ self' : Task,
    load_dataset Demo.disk Demo.permutation Demo.task "train" 1 true
    = Return self'
    ∧ ∃ (fix2x upsample_primary truncate_source : PyVal)
        (data_path src tgt : string) (lang_datasets : list LanguagePair),
        args Demo.task !! "fix2x" = Some fix2x
        ∧ datasets self' !! "train" = Some (ConcatDataset lang_datasets)
        ∧ Forall2
            (fun lang d =>
               let src_symbol :=
                 match fix2x with
                 | VStr "" => "[" +:+ lang +:+ "]"
                 | VStr srclang => "[" +:+ srclang +:+ "]"
                 | VNone => "[None]"
                 | VBool true => "[True]"
                 | VBool false => "[False]"
                 | VInt z => "[" +:+ pretty z +:+ "]"
                 end in
               let src_id :=
                 default (unk_index (src_dict Demo.task))
                   (indices (src_dict Demo.task) !! src_symbol) in
               let tgt_id :=
                 default (unk_index (tgt_dict Demo.task))
                   (indices (tgt_dict Demo.task) !! ("[" +:+ lang +:+ "]")) in
               ∃ (s0 : TokenDataset) (t0 : option TokenDataset),
                 load_tokens Demo.disk (Py.path_join data_path (lang_code lang)) "train"
                   src (src_dict Demo.task) tgt (tgt_dict Demo.task) true
                   upsample_primary
                   (getattr (args Demo.task) "max_source_positions" (VInt 1024))
                   (getattr (args Demo.task) "preprend_bos" (VBool false))
                   truncate_source true
                 = Return (s0, t0)
                 ∧ items (pair_src d) = (fun x => x ++ [src_id]) <$> items s0
                 ∧ (args Demo.task !! "trg_prepend" = Some (VBool true) →
                    items <$> pair_tgt d
                    = (fun t1 => (fun x => tgt_id :: x ++ [tgt_id]) <$> items t1)
                        <$> t0)
                 ∧ (args Demo.task !! "trg_prepend" = Some (VBool false)
                    ∨ args Demo.task !! "trg_prepend" = None →
                    items <$> pair_tgt d
                    = (fun t1 => (fun x => x ++ [tgt_id]) <$> items t1) <$> t0)
                 ∧ pair_eos d = Some tgt_id)
            (langs_for_summ Demo.task) lang_datasets.
Proof.
  eexists. split; [vm_compute; reflexivity|].
  apply (load_dataset_adds_language_ids Demo.disk Demo.permutation Demo.task
           "train" 1 true).
  vm_compute. reflexivity.
Defined.

Example load_dataset_demo_sources :
  (self' ← load_dataset Demo.disk Demo.permutation Demo.task "train" 1 true;
   Return ((fun d =>
              match d with
              | ConcatDataset ds =>
                  (fun p => (items (pair_src p), items <$> pair_tgt p, pair_eos p))
                    <$> ds
              | _ => []
              end) <$> datasets self' !! "train"))
  = Return (Some [([[5; 6; 7; 2; 10]; [8; 2; 10]; [30; 2; 10]],
                   Some [[20; 2; 10]; [21; 2; 10]; [31; 2; 10]], Some 10);
                  ([[9; 9; 2; 11]], Some [[22; 2; 11]], Some 11)]).
Proof. vm_compute. reflexivity. Qed.

(** ** The misspelt [preprend_bos] attribute *)

(** Without [prepend_bos] the token datasets are the combined shards, the
    source one truncated; no stage prepends a token. *)
Lemma load_tokens_without_bos
    (fs : gmap string (list (list Z))) (data_path split : string)
    (src : string) (src_dict : Dictionary) (tgt : string) (tgt_dict : Dictionary)
    (combine : bool) (upsample_primary max_source_positions prepend_bos
     truncate_source : PyVal) (append_source_id : bool)
    (s : TokenDataset) (t : option TokenDataset) :
  truthy prepend_bos = false →
  load_tokens fs data_path split src src_dict tgt tgt_dict combine
    upsample_primary max_source_positions prepend_bos truncate_source
    append_source_id
  = Return (s, t) →
  ∃ (src_datasets tgt_datasets : list TokenDataset) (s0 : TokenDataset),
    load_shards fs (shard_fuel fs) data_path split src tgt combine O [] []
    = Return (src_datasets, tgt_datasets)
    ∧ combine_shards src_datasets tgt_datasets upsample_primary = Return (s0, t)
    ∧ truncate src_dict truncate_source max_source_positions append_source_id s0
      = Return s.
Proof.
  intros Hbos. unfold load_tokens.
  destruct (load_shards _ _ _ _ _ _ _ _ _ _) as [e|[srcs tgts]|]; simpl;
    try discriminate.
  destruct (py_assert _) as [e|[]|]; simpl; try discriminate.
  destruct (combine_shards _ _ _) as [e|[s1 t1]|] eqn:Hcombine; simpl;
    try discriminate.
  unfold prepend_bos_tokens. rewrite Hbos.
  destruct (truncate _ _ _ _ _) as [e|s2|] eqn:Htrunc; simpl; try discriminate.
  intros [= <- <-]. exists srcs, tgts, s1. by rewrite Hcombine.
Qed.

(** C10: [load_dataset] reads the flag under the name [preprend_bos]. For a
    namespace that has [prepend_bos], whatever its value, but no
    [preprend_bos], every per-language dataset is the one
    [load_langpair_sumdataset] builds with [prepend_bos=False]: its source
    sequences are those of the combined shards, truncated if asked, followed
    by the language id, and its target sequences those of the combined shards
    with their language ids; no beginning-of-sentence token is prepended. *)
Theorem preprend_bos_disables_bos
    (fs : gmap string (list (list Z))) (permutation : Z -> nat -> list Z)
    (self : Task) (split : string) (epoch : Z) (combine : bool)
    (prepend_bos : PyVal) (self' : Task) :
  args self !! "prepend_bos" = Some prepend_bos →
  args self !! "preprend_bos" = None →
  load_dataset fs permutation self split epoch combine = Return self' →
  ∃ (data_path src tgt : string) (lang_datasets : list LanguagePair),
    datasets self' !! split = Some (ConcatDataset lang_datasets)
    ∧ Forall2
        (fun lang d =>
           ∃ (fix2x dataset_impl upsample_primary left_pad_source
              left_pad_target truncate_source load_alignments : PyVal)
             (src_datasets tgt_datasets : list TokenDataset)
             (s0 s1 : TokenDataset) (t0 : option TokenDataset),
             let lang_path := Py.path_join data_path (lang_code lang) in
             let srclang :=
               if bool_decide (fix2x ≠ VStr "") then fix2x else VStr lang in
             let max_source_positions :=
               getattr (args self) "max_source_positions" (VInt 1024) in
             let trg_prepend := getattr (args self) "trg_prepend" (VBool false) in
             load_langpair_sumdataset fs lang_path split
               src (src_dict self) srclang tgt (tgt_dict self) (VStr lang)
               combine dataset_impl upsample_primary left_pad_source
               left_pad_target max_source_positions
               (getattr (args self) "max_target_positions" (VInt 1024))
               (VBool false) load_alignments truncate_source true trg_prepend
             = Return d
             ∧ load_shards fs (shard_fuel fs) lang_path split src tgt combine
                 O [] []
               = Return (src_datasets, tgt_datasets)
             ∧ combine_shards src_datasets tgt_datasets upsample_primary
               = Return (s0, t0)
             ∧ truncate (src_dict self) truncate_source max_source_positions
                 true s0
               = Return s1
             ∧ (pair_src d, pair_tgt d, pair_eos d)
               = append_lang_ids (src_dict self) (tgt_dict self) srclang
                   (VStr lang) true trg_prepend s1 t0)
        (langs_for_summ self) lang_datasets.
Proof.
  intros _ Hnone H.
  apply load_dataset_Return in H
    as (data & data_path & src & tgt & valid_subset & lang_datasets
        & _ & _ & _ & _ & Hlangs & _ & _ & Hdatasets & _).
  exists data_path, src, tgt, lang_datasets.
  split; [by rewrite Hdatasets, lookup_insert_eq|].
  eapply Forall2_impl; [exact Hlangs|].
  intros lang d Hlang.
  apply load_lang_Return in Hlang
    as (fix2x & impl & up & lps & lpt & trunc & align & _ & _ & _ & Hload).
  assert (Hbos : getattr (args self) "preprend_bos" (VBool false) = VBool false)
    by (unfold getattr; by rewrite Hnone).
  rewrite Hbos in Hload.
  pose proof Hload as Hstages.
  apply load_langpair_sumdataset_Return in Hstages as (s1 & t0 & Htokens & Hids).
  apply load_tokens_without_bos in Htokens
    as (srcs & tgts & s0 & Hshards & Hcombine & Htrunc); [|reflexivity].
  exists fix2x, impl, up, lps, lpt, trunc, align, srcs, tgts, s0, s1, t0.
  simpl. by repeat split.
Qed.

Lemma preprend_bos_disables_bos_witness :
  ∃ self' : Task,
    args Demo.task !! "prepend_bos" = Some (VBool true)
    ∧ args Demo.task !! "preprend_bos" = None
    ∧ load_dataset Demo.disk Demo.permutation Demo.task "train" 1 true
      = Return self'
    ∧ ∃ (data_path src tgt : string) (lang_datasets : list LanguagePair),
        datasets self' !! "train" = Some (ConcatDataset lang_datasets)
        ∧ Forall2
            (fun lang d =>
               ∃ (fix2x dataset_impl upsample_primary left_pad_source
                  left_pad_target truncate_source load_alignments : PyVal)
                 (src_datasets tgt_datasets : list TokenDataset)
                 (s0 s1 : TokenDataset) (t0 : option TokenDataset),
                 let lang_path := Py.path_join data_path (lang_code lang) in
                 let srclang :=
                   if bool_decide (fix2x ≠ VStr "") then fix2x else VStr lang in
                 let max_source_positions :=
                   getattr (args Demo.task) "max_source_positions" (VInt 1024) in
                 let trg_prepend :=
                   getattr (args Demo.task) "trg_prepend" (VBool false) in
                 load_langpair_sumdataset Demo.disk lang_path "train"
                   src (src_dict Demo.task) srclang tgt (tgt_dict Demo.task)
                   (VStr lang) true dataset_impl upsample_primary
                   left_pad_source left_pad_target max_source_positions
                   (getattr (args Demo.task) "max_target_positions" (VInt 1024))
                   (VBool false) load_alignments truncate_source true trg_prepend
                 = Return d
                 ∧ load_shards Demo.disk (shard_fuel Demo.disk) lang_path "train"
                     src tgt true O [] []
                   = Return (src_datasets, tgt_datasets)
                 ∧ combine_shards src_datasets tgt_datasets upsample_primary
                   = Return (s0, t0)
                 ∧ truncate (src_dict Demo.task) truncate_source
                     max_source_positions true s0
                   = Return s1
                 ∧ (pair_src d, pair_tgt d, pair_eos d)
                   = append_lang_ids (src_dict Demo.task) (tgt_dict Demo.task)
                       srclang (VStr lang) true trg_prepend s1 t0)
            (langs_for_summ Demo.task) lang_datasets.
Proof.
  eexists. split; [reflexivity|]. split; [reflexivity|].
  split; [vm_compute; reflexivity|].
  apply (preprend_bos_disables_bos Demo.disk Demo.permutation Demo.task
           "train" 1 true (VBool true)).
  - reflexivity.
  - reflexivity.
  - vm_compute. reflexivity.
Defined.

(** ** Strings *)

Lemma split_nonempty (c : ascii) (s : string) : Py.split c s ≠ [].
Proof.
  destruct s as [|a s]; simpl; [discriminate|].
  destruct (decide (a = c)); [discriminate|].
  destruct (Py.split c s); discriminate.
Qed.

Lemma split_String (c a : ascii) (s : string) :
  Py.split c (String a s)
  = if decide (a = c) then EmptyString :: Py.split c s
    else match Py.split c s with
         | [] => [String a EmptyString]
         | w :: ws => String a w :: ws
         end.
Proof. reflexivity. Qed.

(** Splitting at [c] and joining with [c] gives the string back. *)
Lemma join_split (c : ascii) (s : string) :
  Py.join (String c EmptyString) (Py.split c s) = s.
Proof.
  induction s as [|a s IH]; [reflexivity|].
  rewrite split_String. pose proof (split_nonempty c s) as Hne.
  destruct (decide (a = c)) as [->|Hac].
  - destruct (Py.split c s) as [|w ws]; [done|].
    change (Py.join (String c "") ("" :: w :: ws))
      with (String c (Py.join (String c "") (w :: ws))).
    by rewrite IH.
  - destruct (Py.split c s) as [|w ws]; [done|].
    destruct ws as [|w' ws].
    + simpl in *. by rewrite IH.
    + change (Py.join (String c "") (String a w :: w' :: ws))
        with (String a (Py.join (String c "") (w :: w' :: ws))).
      by rewrite IH.
Qed.

(** No piece of a split holds the separator. *)
Lemma split_pieces (c : ascii) (s : string) :
  Forall (fun w => Py.contains (String c EmptyString) w = false) (Py.split c s).
Proof.
  induction s as [|a s IH]; [by repeat constructor|].
  rewrite split_String. pose proof (split_nonempty c s) as Hne.
  destruct (decide (a = c)) as [->|Hac].
  - constructor; [reflexivity | exact IH].
  - destruct (Py.split c s) as [|w ws]; [done|].
    inversion IH as [|? ? Hw Hws]; subst. constructor; [|exact Hws].
    simpl. destruct (decide (c = a)) as [->|_]; [done|]. exact Hw.
Qed.

(** [lang_code lang] is the part of [lang] before the first underscore:
    it holds no underscore, and [lang] is either the code alone or the code,
    an underscore and a rest. *)
Lemma lang_code_before_underscore (lang : string) :
  Py.contains "_" (lang_code lang) = false
  ∧ (lang = lang_code lang ∨ ∃ rest, lang = lang_code lang +:+ "_" +:+ rest).
Proof.
  unfold lang_code. pose proof (split_pieces "_" lang) as Hpieces.
  pose proof (join_split "_" lang) as Hjoin.
  destruct (Py.split "_" lang) as [|w ws] eqn:Hsplit;
    [by apply split_nonempty in Hsplit|].
  simpl. apply Forall_cons in Hpieces as [Hw _]. split; [exact Hw|].
  destruct ws as [|w' ws]; [by left|].
  right. exists (Py.join "_" (w' :: ws)). by rewrite <- Hjoin.
Qed.

Example lang_code_en_XX : lang_code "en_XX" = "en".
Proof. reflexivity. Qed.

(** ** Concatenated datasets *)

(** Example [k] of the [j]-th dataset is the example of the concatenation at
    [k] plus the lengths of the datasets before it. *)
Lemma concat_getitem_inside (ds : list LanguagePair) :
  ∀ (j k : nat) (p : LanguagePair),
    ds !! j = Some p →
    (k < len (pair_src p))%nat →
    concat_getitem ds
      (sum_list ((fun q => len (pair_src q)) <$> take j ds) + k)
    = pair_getitem p k.
Proof.
  induction ds as [|q ds IH]; intros j k p Hj Hk; [done|].
  destruct j as [|j]; simpl in *.
  - injection Hj as ->. by rewrite decide_True by lia.
  - rewrite decide_False by lia.
    set (n := sum_list _).
    replace (len (pair_src q) + n + k - len (pair_src q))%nat
      with (n + k)%nat by lia.
    exact (IH j k p Hj Hk).
Qed.

(** There is no example at or beyond the sum of the lengths. *)
Lemma concat_getitem_outside (ds : list LanguagePair) :
  ∀ i : nat,
    (sum_list ((fun q => len (pair_src q)) <$> ds) ≤ i)%nat →
    concat_getitem ds i = Raise IndexError.
Proof.
  induction ds as [|q ds IH]; intros i Hi; [done|].
  change (len (pair_src q)
          + sum_list ((fun q0 => len (pair_src q0)) <$> ds) ≤ i)%nat in Hi.
  cbn [concat_getitem]. rewrite decide_False by lia. apply IH. lia.
Qed.

(** C2: after [load_dataset] returns, there is one dataset per entry of
    [langs_for_summ], in list order, each loaded by
    [load_langpair_sumdataset] from the subdirectory of the data path named
    by the language code, the part of the language before its first
    underscore; the split is registered as the concatenation of these
    datasets, whose length is the sum of their lengths: its examples are
    theirs, one dataset after the other, and there are no others. *)
Theorem load_dataset_concatenates_languages
    (fs : gmap string (list (list Z))) (permutation : Z -> nat -> list Z)
    (self : Task) (split : string) (epoch : Z) (combine : bool) (self' : Task) :
  load_dataset fs permutation self split epoch combine = Return self' →
  ∃ (data_path src tgt : string) (lang_datasets : list LanguagePair),
    Forall2
      (fun lang d =>
         (Py.contains "_" (lang_code lang) = false
          ∧ (lang = lang_code lang
             ∨ ∃ rest, lang = lang_code lang +:+ "_" +:+ rest))
         ∧ ∃ fix2x dataset_impl upsample_primary left_pad_source
             left_pad_target truncate_source load_alignments : PyVal,
             load_langpair_sumdataset fs
               (Py.path_join data_path (lang_code lang)) split
               src (src_dict self)
               (if bool_decide (fix2x ≠ VStr "") then fix2x else VStr lang)
               tgt (tgt_dict self) (VStr lang)
               combine dataset_impl upsample_primary left_pad_source
               left_pad_target
               (getattr (args self) "max_source_positions" (VInt 1024))
               (getattr (args self) "max_target_positions" (VInt 1024))
               (getattr (args self) "preprend_bos" (VBool false))
               load_alignments truncate_source
               true (getattr (args self) "trg_prepend" (VBool false))
             = Return d)
      (langs_for_summ self) lang_datasets
    ∧ datasets self' !! split = Some (ConcatDataset lang_datasets)
    ∧ dataset_len (ConcatDataset lang_datasets)
      = sum_list ((fun d => dataset_len (Pairs d)) <$> lang_datasets)
    ∧ (∀ (j k : nat) (d : LanguagePair),
         lang_datasets !! j = Some d →
         (k < dataset_len (Pairs d))%nat →
         getitem (ConcatDataset lang_datasets)
           (sum_list ((fun d => dataset_len (Pairs d)) <$> take j lang_datasets)
            + k)
         = getitem (Pairs d) k)
    ∧ (∀ i : nat,
         (dataset_len (ConcatDataset lang_datasets) ≤ i)%nat →
         getitem (ConcatDataset lang_datasets) i = Raise IndexError).
Proof.
  intros H.
  apply load_dataset_Return in H
    as (data & data_path & src & tgt & valid_subset & lang_datasets
        & _ & _ & _ & _ & Hlangs & _ & _ & Hdatasets & _).
  exists data_path, src, tgt, lang_datasets.
  split; [|split; [|split; [|split]]].
  - eapply Forall2_impl; [exact Hlangs|].
    intros lang d Hlang. split; [apply lang_code_before_underscore|].
    apply load_lang_Return in Hlang
      as (fix2x & impl & up & lps & lpt & trunc & align & _ & _ & _ & Hload).
    by exists fix2x, impl, up, lps, lpt, trunc, align.
  - by rewrite Hdatasets, lookup_insert_eq.
  - reflexivity.
  - intros j k d Hj Hk. simpl. by apply concat_getitem_inside.
  - intros i Hi. simpl. by apply concat_getitem_outside.
Qed.

Lemma load_dataset_concatenates_languages_witness :
  ∃ self' : Task,
    load_dataset Demo.disk Demo.permutation Demo.task "train" 1 true
    = Return self'
    ∧ ∃ (data_path src tgt : string) (lang_datasets : list LanguagePair),
        Forall2
          (fun lang d =>
             (Py.contains "_" (lang_code lang) = false
              ∧ (lang = lang_code lang
                 ∨ ∃ rest, lang = lang_code lang +:+ "_" +:+ rest))
             ∧ ∃ fix2x dataset_impl upsample_primary left_pad_source
                 left_pad_target truncate_source load_alignments : PyVal,
                 load_langpair_sumdataset Demo.disk
                   (Py.path_join data_path (lang_code lang)) "train"
                   src (src_dict Demo.task)
                   (if bool_decide (fix2x ≠ VStr "") then fix2x else VStr lang)
                   tgt (tgt_dict Demo.task) (VStr lang)
                   true dataset_impl upsample_primary left_pad_source
                   left_pad_target
                   (getattr (args Demo.task) "max_source_positions" (VInt 1024))
                   (getattr (args Demo.task) "max_target_positions" (VInt 1024))
                   (getattr (args Demo.task) "preprend_bos" (VBool false))
                   load_alignments truncate_source
                   true (getattr (args Demo.task) "trg_prepend" (VBool false))
                 = Return d)
          (langs_for_summ Demo.task) lang_datasets
        ∧ datasets self' !! "train" = Some (ConcatDataset lang_datasets)
        ∧ dataset_len (ConcatDataset lang_datasets)
          = sum_list ((fun d => dataset_len (Pairs d)) <$> lang_datasets)
        ∧ (∀ (j k : nat) (d : LanguagePair),
             lang_datasets !! j = Some d →
             (k < dataset_len (Pairs d))%nat →
             getitem (ConcatDataset lang_datasets)
               (sum_list ((fun d => dataset_len (Pairs d))
                            <$> take j lang_datasets) + k)
             = getitem (Pairs d) k)
        ∧ (∀ i : nat,
             (dataset_len (ConcatDataset lang_datasets) ≤ i)%nat →
             getitem (ConcatDataset lang_datasets) i = Raise IndexError).
Proof.
  eexists. split; [vm_compute; reflexivity|].
  apply (load_dataset_concatenates_languages Demo.disk Demo.permutation
           Demo.task "train" 1 true).
  vm_compute. reflexivity.
Defined.

(** The English dataset has three examples and the German one; the stream
    has four, the German example last. *)
Example load_dataset_demo_stream :
  (self' ← load_dataset Demo.disk Demo.permutation Demo.task "train" 1 true;
   match datasets self' !! "train" with
   | Some d =>
       s ← getitem d 3;
       Return (dataset_len d, source s, target s)
   | None => Raise IndexError
   end)
  = Return (4%nat, [9; 9; 2; 11], Some [22; 2; 11]).
Proof. vm_compute. reflexivity. Qed.

(** ** The discarded shuffle *)

(** The permutation drawn at line 246 does not reach the result. *)
Lemma load_dataset_ignores_permutation
    (fs : gmap string (list (list Z))) (permutation permutation' : Z -> nat -> list Z)
    (self : Task) (split : string) (epoch : Z) (combine : bool) :
  load_dataset fs permutation self split epoch combine
  = load_dataset fs permutation' self split epoch combine.
Proof.
  unfold load_dataset.
  destruct (attr (args self) "data" ≫= as_str) as [e|data|]; simpl; try done.
  destruct (py_assert _) as [e|[]|]; simpl; try done.
  destruct (Py.split ":" data !! _) as [data_path|]; simpl; try done.
  destruct (attr (args self) "source_lang" ≫= as_str) as [e|src|]; simpl;
    try done.
  destruct (attr (args self) "target_lang" ≫= as_str) as [e|tgt|]; simpl;
    try done.
  destruct (mapM _ _) as [e|lang_datasets|]; simpl; try done.
  destruct (py_assert _) as [e|[]|]; simpl; try done.
  destruct (register_langs _ _ _ _ _ _) as [e|[lang_splits ds]|]; simpl;
    try done.
  destruct (attr (args self) "valid_subset" ≫= as_str) as [e|valid|]; simpl;
    try done.
  destruct (attr _ "seed" ≫= as_int) as [e|seed|]; simpl; try done.
  destruct (np_random_seed _) as [e|[]|]; simpl; try done.
  by rewrite !insert_insert_eq.
Qed.

(** C3, on the code: the assignment of line 256 replaces the [SortDataset]
    that line 248 registered. After [load_dataset] returns, the split is
    registered as the plain concatenation, in language order; it is no
    [SortDataset], and the result is the same whatever permutation the seed
    gives. *)
Theorem load_dataset_discards_shuffle
    (fs : gmap string (list (list Z))) (permutation : Z -> nat -> list Z)
    (self : Task) (split : string) (epoch : Z) (combine : bool) (self' : Task) :
  load_dataset fs permutation self split epoch combine = Return self' →
  (∃ lang_datasets : list LanguagePair,
     datasets self' !! split = Some (ConcatDataset lang_datasets))
  ∧ (∀ (dataset : Dataset) (sort_order : list (list Z)),
       datasets self' !! split ≠ Some (SortDataset dataset sort_order))
  ∧ (∀ permutation' : Z -> nat -> list Z,
       load_dataset fs permutation' self split epoch combine = Return self').
Proof.
  intros H. pose proof H as Hinv.
  apply load_dataset_Return in Hinv
    as (data & data_path & src & tgt & valid_subset & lang_datasets
        & _ & _ & _ & _ & _ & _ & _ & Hdatasets & _).
  assert (Hsplit : datasets self' !! split = Some (ConcatDataset lang_datasets))
    by (by rewrite Hdatasets, lookup_insert_eq).
  split; [by exists lang_datasets|]. split.
  - intros dataset sort_order. rewrite Hsplit. discriminate.
  - intros permutation'. rewrite <- H.
    apply load_dataset_ignores_permutation.
Qed.

Lemma load_dataset_discards_shuffle_witness :
  ∃ self' : Task,
    load_dataset Demo.disk Demo.permutation Demo.task "train" 1 true
    = Return self'
    ∧ (∃ lang_datasets : list LanguagePair,
         datasets self' !! "train" = Some (ConcatDataset lang_datasets))
    ∧ (∀ (dataset : Dataset) (sort_order : list (list Z)),
         datasets self' !! "train" ≠ Some (SortDataset dataset sort_order))
    ∧ (∀ permutation' : Z -> nat -> list Z,
         load_dataset Demo.disk permutation' Demo.task "train" 1 true
         = Return self').
Proof.
  eexists. split; [vm_compute; reflexivity|].
  apply (load_dataset_discards_shuffle Demo.disk Demo.permutation Demo.task
           "train" 1 true).
  vm_compute. reflexivity.
Defined.

(** ** Registered per-language splits *)

Lemma string_app_length (s1 s2 : string) :
  String.length (s1 +:+ s2) = (String.length s1 + String.length s2)%nat.
Proof.
  induction s1 as [|a s1 IH]; [done|].
  change (S (String.length (s1 +:+ s2))
          = (S (String.length s1) + String.length s2)%nat).
  by rewrite IH.
Qed.




(** ** Generators *)




(** ** Shard names *)

Lemma string_app_cons (a : ascii) (s t : string) :
  String a s +:+ t = String a (s +:+ t).
Proof. reflexivity. Qed.

Lemma string_app_assoc (s1 s2 s3 : string) :
  (s1 +:+ s2) +:+ s3 = s1 +:+ (s2 +:+ s3).
Proof.
  induction s1 as [|a s1 IH]; [done|].
  by rewrite !string_app_cons, IH.
Qed.

Lemma string_app_nil_r (s : string) : s +:+ "" = s.
Proof.
  induction s as [|a s IH]; [done|]. by rewrite string_app_cons, IH.
Qed.

(** Two concatenations with tails of one length agree part by part. *)
Lemma string_app_inv_tail (s1 s2 t1 t2 : string) :
  s1 +:+ t1 = s2 +:+ t2 →
  String.length t1 = String.length t2 →
  s1 = s2 ∧ t1 = t2.
Proof.
  revert s2. induction s1 as [|a s1 IH]; intros [|b s2] H Hlen.
  - done.
  - apply (f_equal String.length) in H.
    rewrite !string_app_length in H. simpl in H. lia.
  - apply (f_equal String.length) in H.
    rewrite !string_app_length in H. simpl in H. lia.
  - rewrite !string_app_cons in H. injection H as -> H.
    by destruct (IH s2 H Hlen) as [-> ->].
Qed.

Lemma startswith_slash_app (b c : string) :
  b ≠ "" → Py.startswith "/" (b +:+ c) = Py.startswith "/" b.
Proof. by destruct b. Qed.

Lemma path_join_app (a b c : string) :
  b ≠ "" → Py.path_join a (b +:+ c) = Py.path_join a b +:+ c.
Proof.
  intros Hb. unfold Py.path_join. rewrite startswith_slash_app by done.
  destruct (Py.startswith "/" b); [done|].
  destruct (bool_decide (a = "") || Py.endswith_slash a);
    by rewrite !string_app_assoc.
Qed.

(** Joining one directory with two names that are both relative, or both
    absolute, gives two paths only for two names. *)
Lemma path_join_inj (a b b' : string) :
  Py.startswith "/" b = Py.startswith "/" b' →
  Py.path_join a b = Py.path_join a b' → b = b'.
Proof.
  unfold Py.path_join. intros <-.
  destruct (Py.startswith "/" b); [done|].
  destruct (bool_decide (a = "") || Py.endswith_slash a); intros H.
  - by apply String.app_inj in H.
  - apply String.app_inj in H. by injection H.
Qed.

(** Decimal numerals are made of digits. *)
Lemma pretty_N_go_head (x : N) (s : string) :
  (s ≠ "" ∧ Py.startswith "/" s = false) →
  pretty_N_go x s ≠ "" ∧ Py.startswith "/" (pretty_N_go x s) = false.
Proof.
  revert s. induction (N.lt_wf_0 x) as [x _ IH]; intros s Hs.
  assert (x = 0 ∨ 0 < x)%N as [->|Hx] by lia.
  - by rewrite pretty_N_go_0.
  - rewrite pretty_N_go_step by done. apply IH; [by apply N.div_lt|].
    split; [done|]. unfold pretty_N_char. by repeat case_match.
Qed.

Lemma str_nat_head (k : nat) :
  Py.str_nat k ≠ "" ∧ Py.startswith "/" (Py.str_nat k) = false.
Proof.
  unfold Py.str_nat, pretty, pretty_nat, pretty, pretty_N.
  case_decide as Hk; [done|].
  rewrite pretty_N_go_step by lia. apply pretty_N_go_head.
  split; [done|]. unfold pretty_N_char. by repeat case_match.
Qed.

(** [split], [split1], [split2], ... *)
Lemma split_k_0 (split : string) : split_k split 0 = split.
Proof. unfold split_k. simpl. apply string_app_nil_r. Qed.

Lemma split_k_pos (split : string) (k : nat) :
  (0 < k)%nat → split_k split k = split +:+ Py.str_nat k.
Proof. intros Hk. unfold split_k. by rewrite decide_True. Qed.

Example split_k_train_2 : split_k "train" 2 = "train2".
Proof. reflexivity. Qed.

(** ** Shards on disk *)

Section ShardFacts.

Variable fs : gmap string (list (list Z)).
Variables data_path split src tgt : string.

Lemma pair_prefix_nonempty (s x y : string) : pair_prefix s x y ≠ "".
Proof. unfold pair_prefix. by destruct s. Qed.

Lemma pair_prefix_app (k : nat) (x y lang : string) :
  pair_prefix (split_k split k) x y +:+ lang
  = split +:+ ((if decide (0 < k)%nat then Py.str_nat k else "")
               +:+ "." +:+ x +:+ "-" +:+ y +:+ "." +:+ lang).
Proof. unfold pair_prefix, split_k. by rewrite !string_app_assoc. Qed.

(** Whether a shard file name is absolute does not depend on the shard or on
    the naming direction. *)
Lemma shard_name_absolute (k : nat) (x y lang : string) :
  Py.startswith "/" (pair_prefix (split_k split k) x y +:+ lang)
  = Py.startswith "/" split.
Proof.
  rewrite pair_prefix_app. destruct split as [|c r]; [|done].
  change ("" +:+ ?s) with s. case_decide; [|done].
  destruct (str_nat_head k) as [Hne Hslash].
  by rewrite startswith_slash_app.
Qed.

Lemma shard_suffix_inj (k k' : nat) :
  (if decide (0 < k)%nat then Py.str_nat k else "")
  = (if decide (0 < k')%nat then Py.str_nat k' else "") →
  k = k'.
Proof.
  repeat case_decide; intros Heq.
  - by apply (inj pretty) in Heq.
  - by destruct (str_nat_head k).
  - by destruct (str_nat_head k').
  - lia.
Qed.

Lemma shard_name_inj (k k' : nat) (x y x' y' lang : string) :
  (String.length x + String.length y = String.length x' + String.length y')%nat →
  Py.path_join data_path (pair_prefix (split_k split k) x y +:+ lang)
  = Py.path_join data_path (pair_prefix (split_k split k') x' y' +:+ lang) →
  k = k'.
Proof.
  intros Hlen H. apply path_join_inj in H.
  2:{ by rewrite !shard_name_absolute. }
  rewrite !pair_prefix_app in H. apply String.app_inj in H.
  apply string_app_inv_tail in H as [H _].
  - by apply shard_suffix_inj.
  - rewrite !string_app_length. simpl. lia.
Qed.

(** The prefix found for a shard is the prefix of the file that exists. *)
Lemma infer_prefix_Some (k : nat) (prefix : string) :
  infer_prefix fs data_path split src tgt k = Some prefix →
  prefix +:+ src = shard_file fs data_path split src tgt k
  ∧ is_Some (fs !! shard_file fs data_path split src tgt k).
Proof.
  unfold infer_prefix, shard_file, split_exists, dataset_exists.
  case_bool_decide as H1.
  - intros [= <-]. rewrite path_join_app in * by apply pair_prefix_nonempty.
    done.
  - case_bool_decide as H2; [|done].
    intros [= <-]. rewrite path_join_app in * by apply pair_prefix_nonempty.
    done.
Qed.

Lemma infer_prefix_None (k : nat) :
  infer_prefix fs data_path split src tgt k = None ↔
  split_exists fs (split_k split k) src tgt src data_path = false
  ∧ split_exists fs (split_k split k) tgt src src data_path = false.
Proof.
  unfold infer_prefix.
  destruct (split_exists fs (split_k split k) src tgt src data_path);
    [by split; [|intros []]|].
  destruct (split_exists fs (split_k split k) tgt src src data_path);
    by split; [|intros []].
Qed.

(** A shard exists exactly when the loop finds a prefix for it: the source
    corpus under the prefix can then be loaded. *)
Lemma shard_is_Some (k : nat) :
  is_Some (shard fs data_path split src tgt k)
  ↔ is_Some (infer_prefix fs data_path split src tgt k).
Proof.
  unfold shard. split.
  - destruct (infer_prefix _ _ _ _ _ _); [by eexists | by intros [? ?]].
  - intros [prefix Hprefix]. rewrite Hprefix. simpl.
    apply infer_prefix_Some in Hprefix as [-> [l Hl]].
    unfold load_indexed_dataset. rewrite Hl. simpl. by eexists.
Qed.

Lemma shard_file_inj (k k' : nat) :
  shard_file fs data_path split src tgt k
  = shard_file fs data_path split src tgt k' →
  k = k'.
Proof.
  unfold shard_file.
  destruct (split_exists fs (split_k split k) src tgt src data_path),
    (split_exists fs (split_k split k') src tgt src data_path);
    apply shard_name_inj; lia.
Qed.

(** There are at most as many consecutive shards as corpora on disk. *)
Lemma consecutive_shards_bounded (n : nat) :
  (∀ k, (k < n)%nat → is_Some (infer_prefix fs data_path split src tgt k)) →
  (n ≤ size fs)%nat.
Proof.
  intros Hall.
  set (files := shard_file fs data_path split src tgt <$> seq 0 n).
  assert (Hnodup : NoDup files).
  { apply NoDup_fmap_2_strong; [|apply NoDup_seq].
    intros k k' _ _. apply shard_file_inj. }
  assert (Hsub : list_to_set (C := gset string) files ⊆ dom fs).
  { intros f Hf. apply elem_of_list_to_set, list_elem_of_fmap in Hf
      as (k & -> & Hk).
    apply elem_of_seq in Hk. destruct (Hall k) as [prefix Hprefix]; [lia|].
    apply elem_of_dom. by apply infer_prefix_Some in Hprefix as [_ ?]. }
  apply subseteq_size in Hsub.
  rewrite size_list_to_set, size_dom in Hsub by done.
  unfold files in Hsub. by rewrite length_fmap, length_seq in Hsub.
Qed.

End ShardFacts.

(** ** The shard loop *)

Section ShardLoop.

Variable fs : gmap string (list (list Z)).
Variables data_path split src tgt : string.

Local Abbreviation infer := (infer_prefix fs data_path split src tgt).
Local Abbreviation shard_at := (shard fs data_path split src tgt).
Local Abbreviation loop := (fun fuel combine => load_shards fs fuel data_path split src tgt combine).

(** One iteration at an existing shard. *)
Lemma load_shards_step (fuel : nat) (combine : bool) (k : nat)
    (srcs tgts : list TokenDataset) (s : TokenDataset) (t : option TokenDataset) :
  shard_at k = Some (s, t) →
  loop (S fuel) combine k srcs tgts
  = if combine
    then loop fuel combine (S k) (srcs ++ [s]) (tgts ++ option_list t)
    else Return (srcs ++ [s], tgts ++ option_list t).
Proof.
  unfold shard. simpl.
  destruct (infer k) as [prefix|]; simpl; [|done].
  destruct (load_indexed_dataset fs (prefix +:+ src)) as [s'|]; simpl; [|done].
  intros [= -> <-].
  destruct (load_indexed_dataset fs (prefix +:+ tgt)); simpl;
    by rewrite ?app_nil_r.
Qed.

(** The iteration at a missing shard. *)
Lemma load_shards_stop (fuel : nat) (combine : bool) (k : nat)
    (srcs tgts : list TokenDataset) :
  infer k = None →
  loop (S fuel) combine k srcs tgts
  = if decide (0 < k)%nat then Return (srcs, tgts) else Raise FileNotFoundError.
Proof. intros H. simpl. by rewrite H. Qed.

(** With [combine], the loop collects the shards from [k] up to the first
    missing one, given fuel for them. *)
Lemma load_shards_collect (m : nat) :
  ∀ (fuel k : nat) (srcs tgts : list TokenDataset),
    (∀ j, (k ≤ j < k + m)%nat → is_Some (infer j)) →
    infer (k + m)%nat = None →
    (0 < k + m)%nat →
    (m < fuel)%nat →
    loop fuel true k srcs tgts
    = Return (srcs ++ (omap shard_at (seq k m)).*1,
              tgts ++ omap snd (omap shard_at (seq k m))).
Proof.
  induction m as [|m IH]; intros fuel k srcs tgts Hall Hnone Hpos Hfuel;
    (destruct fuel as [|fuel]; [lia|]).
  - rewrite Nat.add_0_r in Hnone. rewrite load_shards_stop by done.
    rewrite decide_True by lia. simpl. by rewrite !app_nil_r.
  - destruct (proj2 (shard_is_Some fs data_path split src tgt k))
      as [[s t] Hshard]; [apply Hall; lia|].
    rewrite (load_shards_step _ _ _ _ _ _ _ Hshard).
    rewrite IH.
    + cbn [seq omap list_omap]. rewrite Hshard. simpl.
      rewrite <- !app_assoc. by destruct t.
    + intros j Hj. apply Hall. lia.
    + by replace (S k + m)%nat with (k + S m)%nat by lia.
    + lia.
    + lia.
Qed.

(** The loop raises [FileNotFoundError] only at shard 0. *)
Lemma load_shards_not_found (fuel : nat) :
  ∀ (combine : bool) (k : nat) (srcs tgts : list TokenDataset),
    loop fuel combine k srcs tgts = Raise FileNotFoundError →
    k = O ∧ infer O = None.
Proof.
  induction fuel as [|fuel IH]; intros combine k srcs tgts; simpl; [done|].
  destruct (infer k) as [prefix|] eqn:Hinfer.
  - destruct (load_indexed_dataset fs (prefix +:+ src)); [|done].
    destruct combine; [|done].
    intros H. apply IH in H as [? _]. lia.
  - case_decide; [done|]. intros _. assert (k = O) as -> by lia. done.
Qed.

(** A loop that runs out of fuel has found a shard at every step. *)
Lemma load_shards_unfinished (fuel : nat) :
  ∀ (combine : bool) (k : nat) (srcs tgts : list TokenDataset),
    loop fuel combine k srcs tgts = Unfinished →
    ∀ j, (k ≤ j < k + fuel)%nat → is_Some (infer j).
Proof.
  induction fuel as [|fuel IH]; intros combine k srcs tgts; simpl;
    [intros; lia|].
  destruct (infer k) as [prefix|] eqn:Hinfer; [|by case_decide].
  destruct (load_indexed_dataset fs (prefix +:+ src)); [|done].
  destruct combine; [|done].
  intros H j Hj. destruct (decide (j = k)) as [->|Hne]; [by eexists|].
  apply (IH _ _ _ _ H). lia.
Qed.

(** The fuel given to the loop always suffices. *)
Lemma load_shards_finishes (combine : bool) :
  loop (shard_fuel fs) combine O [] [] ≠ Unfinished.
Proof.
  intros H.
  pose proof (load_shards_unfinished _ _ _ _ _ H) as Hall.
  pose proof (consecutive_shards_bounded fs data_path split src tgt
                (shard_fuel fs)) as Hbound.
  unfold shard_fuel in *.
  assert (S (size fs) ≤ size fs)%nat; [|lia].
  apply Hbound. intros k Hk. apply Hall. lia.
Qed.

End ShardLoop.

(** ** Which corpora [load_langpair_sumdataset] reads *)

Lemma py_assert_cases (b : bool) :
  py_assert b = Return tt ∨ py_assert b = Raise AssertionError.
Proof. destruct b; [by left | by right]. Qed.

Lemma combine_shards_cases (srcs tgts : list TokenDataset) (up : PyVal) :
  (∃ r, combine_shards srcs tgts up = Return r)
  ∨ combine_shards srcs tgts up = Raise TypeError.
Proof.
  unfold combine_shards.
  destruct srcs as [|d [|d' srcs]]; try (left; by eexists);
    destruct up; simpl; try (by right); left; by eexists.
Qed.

Lemma truncate_cases (src_dict : Dictionary) (truncate_source msp : PyVal)
    (append_source_id : bool) (d : TokenDataset) :
  (∃ r, truncate src_dict truncate_source msp append_source_id d = Return r)
  ∨ truncate src_dict truncate_source msp append_source_id d = Raise TypeError.
Proof.
  unfold truncate. destruct (truthy truncate_source); [|left; by eexists].
  destruct msp; simpl; try (by right); left; by eexists.
Qed.

Section ReadCorpora.

Variable fs : gmap string (list (list Z)).
Variables (data_path split src tgt : string) (src_dict tgt_dict : Dictionary).

(** What [load_tokens] does after the loop neither raises
    [FileNotFoundError] nor fails to finish. *)
Lemma load_tokens_after_loop (combine : bool)
    (upsample_primary max_source_positions prepend_bos truncate_source : PyVal)
    (append_source_id : bool) (srcs tgts : list TokenDataset) :
  load_shards fs (shard_fuel fs) data_path split src tgt combine O [] []
  = Return (srcs, tgts) →
  load_tokens fs data_path split src src_dict tgt tgt_dict combine
    upsample_primary max_source_positions prepend_bos truncate_source
    append_source_id ≠ Raise FileNotFoundError
  ∧ load_tokens fs data_path split src src_dict tgt tgt_dict combine
      upsample_primary max_source_positions prepend_bos truncate_source
      append_source_id ≠ Unfinished.
Proof.
  intros Hloop. unfold load_tokens. rewrite Hloop. simpl.
  destruct (py_assert_cases
              (bool_decide (length srcs = length tgts)
               || bool_decide (length tgts = O))) as [-> | ->]; simpl; [|done].
  destruct (combine_shards_cases srcs tgts upsample_primary)
    as [[[s t] ->] | ->]; simpl; [|done].
  destruct (prepend_bos_tokens src_dict tgt_dict prepend_bos s t) as [s' t'].
  by destruct (truncate_cases src_dict truncate_source max_source_positions
                 append_source_id s') as [[r ->] | ->].
Qed.

End ReadCorpora.

(** [load_langpair_sumdataset] raises [FileNotFoundError] exactly when the
    base shard, the one named by [split] itself, exists under neither naming
    direction, ['{split}.{src}-{tgt}.{src}'] or ['{split}.{tgt}-{src}.{src}'],
    in the data path. *)
Theorem load_langpair_sumdataset_not_found
    (fs : gmap string (list (list Z))) (data_path split : string)
    (src : string) (src_dict : Dictionary) (src_lang : PyVal)
    (tgt : string) (tgt_dict : Dictionary) (tgt_lang : PyVal)
    (combine : bool) (dataset_impl upsample_primary : PyVal)
    (left_pad_source left_pad_target max_source_positions
     max_target_positions prepend_bos load_alignments truncate_source : PyVal)
    (append_source_id : bool) (trg_prepend : PyVal) :
  load_langpair_sumdataset fs data_path split src src_dict src_lang
    tgt tgt_dict tgt_lang combine dataset_impl upsample_primary
    left_pad_source left_pad_target max_source_positions max_target_positions
    prepend_bos load_alignments truncate_source append_source_id trg_prepend
  = Raise FileNotFoundError
  ↔ fs !! Py.path_join data_path
            (split +:+ "." +:+ src +:+ "-" +:+ tgt +:+ "." +:+ src) = None
    ∧ fs !! Py.path_join data_path
              (split +:+ "." +:+ tgt +:+ "-" +:+ src +:+ "." +:+ src) = None.
Proof.
  assert (Hexists : ∀ x y,
    split_exists fs (split_k split 0) x y src data_path = false
    ↔ fs !! Py.path_join data_path
              (split +:+ "." +:+ x +:+ "-" +:+ y +:+ "." +:+ src) = None).
  { intros x y. unfold split_exists, dataset_exists, pair_prefix.
    rewrite split_k_0, !string_app_assoc.
    rewrite bool_decide_eq_false, <- eq_None_not_Some. done. }
  rewrite <- !Hexists, <- infer_prefix_None.
  unfold load_langpair_sumdataset.
  destruct (load_shards fs (shard_fuel fs) data_path split src tgt combine
              O [] []) as [e|[srcs tgts]|] eqn:Hloop.
  - (* the loop raises *)
    assert (Htokens :
      load_tokens fs data_path split src src_dict tgt tgt_dict combine
        upsample_primary max_source_positions prepend_bos truncate_source
        append_source_id = Raise e)
      by (unfold load_tokens; by rewrite Hloop).
    rewrite Htokens. simpl. split.
    + intros [= ->]. by apply load_shards_not_found in Hloop as [_ ?].
    + intros Hnone. unfold shard_fuel in Hloop.
      rewrite load_shards_stop in Hloop by done. simpl in Hloop. congruence.
  - (* the loop returns *)
    pose proof (load_tokens_after_loop fs data_path split src tgt src_dict
                  tgt_dict combine upsample_primary max_source_positions
                  prepend_bos truncate_source append_source_id srcs tgts Hloop)
      as [Hnf _].
    split.
    + intros H. apply bind_Raise in H as [H | ([s t] & _ & H)]; [done|].
      simpl in H. by destruct (append_lang_ids _ _ _ _ _ _ _ _) as [[? ?] ?].
    + intros Hnone. unfold shard_fuel in Hloop.
      rewrite load_shards_stop in Hloop by done. simpl in Hloop. congruence.
  - by apply load_shards_finishes in Hloop.
Qed.

(** With [combine], the loop reads the shards [split], [split1], [split2],
    ... in this order up to the first missing one, and returns them without
    raising: when shards 0 to [n - 1] exist and shard [n] does not, the
    source datasets are the source corpora of these [n] shards, and the
    target datasets the target corpora of those among them that have one. *)
Theorem load_shards_reads_consecutive_shards
    (fs : gmap string (list (list Z))) (data_path split src tgt : string)
    (n : nat) :
  (0 < n)%nat →
  (∀ k, (k < n)%nat → is_Some (shard fs data_path split src tgt k)) →
  shard fs data_path split src tgt n = None →
  load_shards fs (shard_fuel fs) data_path split src tgt true O [] []
  = Return ((omap (shard fs data_path split src tgt) (seq 0 n)).*1,
            omap snd (omap (shard fs data_path split src tgt) (seq 0 n)))
  ∧ length (omap (shard fs data_path split src tgt) (seq 0 n)) = n.
Proof.
  intros Hn Hall Hnone.
  assert (Hinfer : ∀ k, (k < n)%nat →
            is_Some (infer_prefix fs data_path split src tgt k))
    by (intros k Hk; by apply shard_is_Some, Hall).
  assert (Hstop : infer_prefix fs data_path split src tgt n = None).
  { apply eq_None_not_Some. intros H. apply shard_is_Some in H.
    rewrite Hnone in H. by destruct H. }
  split.
  - rewrite (load_shards_collect fs data_path split src tgt n); [done|..].
    + intros j Hj. apply Hinfer. lia.
    + done.
    + lia.
    + pose proof (consecutive_shards_bounded fs data_path split src tgt n Hinfer).
      unfold shard_fuel. lia.
  - clear Hn Hnone Hstop Hinfer.
    assert (Hgen : ∀ m k, (∀ j, (k ≤ j < k + m)%nat →
                      is_Some (shard fs data_path split src tgt j)) →
              length (omap (shard fs data_path split src tgt) (seq k m)) = m).
    { induction m as [|m IH]; intros k Hk; [done|].
      cbn [seq omap list_omap].
      destruct (Hk k) as [x ->]; [lia|]. simpl. f_equal. apply IH.
      intros j Hj. apply Hk. lia. }
    apply Hgen. intros j Hj. apply Hall. lia.
Qed.

Lemma load_shards_reads_consecutive_shards_witness :
  load_shards Demo.disk (shard_fuel Demo.disk) "data/en" "train" "doc" "sum"
    true O [] []
  = Return ((omap (shard Demo.disk "data/en" "train" "doc" "sum") (seq 0 2)).*1,
            omap snd (omap (shard Demo.disk "data/en" "train" "doc" "sum")
                        (seq 0 2)))
  ∧ length (omap (shard Demo.disk "data/en" "train" "doc" "sum") (seq 0 2))
    = 2%nat.
Proof.
  apply (load_shards_reads_consecutive_shards Demo.disk "data/en" "train"
           "doc" "sum" 2).
  - lia.
  - intros k Hk.
    assert (k = 0 ∨ k = 1)%nat as [-> | ->] by lia; vm_compute; by eexists.
  - vm_compute. reflexivity.
Defined.

Example load_shards_demo :
  (r ← load_shards Demo.disk (shard_fuel Demo.disk) "data/en" "train" "doc"
         "sum" true O [] [];
   Return (map items (fst r), map items (snd r)))
  = Return ([[[5; 6; 7; 2]; [8; 2]]; [[30; 2]]], [[[20; 2]; [21; 2]]; [[31; 2]]]).
Proof. vm_compute. reflexivity. Qed.

(** Without [combine] the loop reads the base shard only. *)
Lemma load_shards_without_combine
    (fs : gmap string (list (list Z))) (data_path split src tgt : string)
    (s : TokenDataset) (t : option TokenDataset) :
  shard fs data_path split src tgt 0 = Some (s, t) →
  load_shards fs (shard_fuel fs) data_path split src tgt false O [] []
  = Return ([s], option_list t).
Proof.
  intros Hshard. unfold shard_fuel.
  by rewrite (load_shards_step _ _ _ _ _ _ _ _ _ _ _ _ Hshard).
Qed.

Lemma load_shards_combine_irrelevant
    (fs : gmap string (list (list Z))) (data_path split src tgt : string) :
  shard fs data_path split src tgt 1 = None →
  load_shards fs (shard_fuel fs) data_path split src tgt true O [] []
  = load_shards fs (shard_fuel fs) data_path split src tgt false O [] [].
Proof.
  intros Hnone.
  assert (Hstop : infer_prefix fs data_path split src tgt 1 = None).
  { apply eq_None_not_Some. intros H. apply shard_is_Some in H.
    rewrite Hnone in H. by destruct H. }
  destruct (shard fs data_path split src tgt 0) as [[s t]|] eqn:Hshard.
  - rewrite (load_shards_without_combine _ _ _ _ _ _ _ Hshard).
    assert (Hsize : (1 ≤ size fs)%nat).
    { apply (consecutive_shards_bounded fs data_path split src tgt 1).
      intros k Hk. assert (k = O) as -> by lia.
      apply shard_is_Some. by rewrite Hshard. }
    unfold shard_fuel.
    rewrite (load_shards_step _ _ _ _ _ _ _ _ _ _ _ _ Hshard).
    destruct (size fs) as [|fuel]; [lia|].
    by rewrite load_shards_stop.
  - assert (Hnone0 : infer_prefix fs data_path split src tgt 0 = None).
    { apply eq_None_not_Some. intros H. apply shard_is_Some in H.
      rewrite Hshard in H. by destruct H. }
    unfold shard_fuel. by rewrite !load_shards_stop.
Qed.

(** [combine] only matters when a second shard exists: if [split1] exists
    under neither naming direction, [load_langpair_sumdataset] gives the same
    result, dataset or exception, with and without [combine]. *)
Theorem load_langpair_sumdataset_combine_irrelevant
    (fs : gmap string (list (list Z))) (data_path split : string)
    (src : string) (src_dict : Dictionary) (src_lang : PyVal)
    (tgt : string) (tgt_dict : Dictionary) (tgt_lang : PyVal)
    (dataset_impl upsample_primary : PyVal)
    (left_pad_source left_pad_target max_source_positions
     max_target_positions prepend_bos load_alignments truncate_source : PyVal)
    (append_source_id : bool) (trg_prepend : PyVal) :
  shard fs data_path split src tgt 1 = None →
  load_langpair_sumdataset fs data_path split src src_dict src_lang
    tgt tgt_dict tgt_lang true dataset_impl upsample_primary
    left_pad_source left_pad_target max_source_positions max_target_positions
    prepend_bos load_alignments truncate_source append_source_id trg_prepend
  = load_langpair_sumdataset fs data_path split src src_dict src_lang
      tgt tgt_dict tgt_lang false dataset_impl upsample_primary
      left_pad_source left_pad_target max_source_positions max_target_positions
      prepend_bos load_alignments truncate_source append_source_id trg_prepend.
Proof.
  intros Hnone. unfold load_langpair_sumdataset, load_tokens.
  by rewrite (load_shards_combine_irrelevant _ _ _ _ _ Hnone).
Qed.

Lemma load_langpair_sumdataset_combine_irrelevant_witness :
  load_langpair_sumdataset Demo.disk "data/de" "train" "doc" Demo.dict
    (VStr "de_DE") "sum" Demo.dict (VStr "de_DE") true VNone (VInt 1)
    (VBool true) (VBool false) (VInt 1024) (VInt 1024)
    (VBool false) (VBool false) (VBool false) true (VBool false)
  = load_langpair_sumdataset Demo.disk "data/de" "train" "doc" Demo.dict
      (VStr "de_DE") "sum" Demo.dict (VStr "de_DE") false VNone (VInt 1)
      (VBool true) (VBool false) (VInt 1024) (VInt 1024)
      (VBool false) (VBool false) (VBool false) true (VBool false).
Proof.
  apply (load_langpair_sumdataset_combine_irrelevant Demo.disk "data/de"
           "train" "doc" Demo.dict (VStr "de_DE") "sum" Demo.dict
           (VStr "de_DE")).
  vm_compute. reflexivity.
Defined.

(** ** Termination *)

Lemma load_langpair_sumdataset_finishes
    (fs : gmap string (list (list Z))) (data_path split : string)
    (src : string) (src_dict : Dictionary) (src_lang : PyVal)
    (tgt : string) (tgt_dict : Dictionary) (tgt_lang : PyVal)
    (combine : bool) (dataset_impl upsample_primary : PyVal)
    (left_pad_source left_pad_target max_source_positions
     max_target_positions prepend_bos load_alignments truncate_source : PyVal)
    (append_source_id : bool) (trg_prepend : PyVal) :
  load_langpair_sumdataset fs data_path split src src_dict src_lang
    tgt tgt_dict tgt_lang combine dataset_impl upsample_primary
    left_pad_source left_pad_target max_source_positions max_target_positions
    prepend_bos load_alignments truncate_source append_source_id trg_prepend
  ≠ Unfinished.
Proof.
  unfold load_langpair_sumdataset. intros H.
  apply bind_Unfinished in H as [H | ([s t] & _ & H)].
  - destruct (load_shards fs (shard_fuel fs) data_path split src tgt combine
                O [] []) as [e|[srcs tgts]|] eqn:Hloop.
    + unfold load_tokens in H. by rewrite Hloop in H.
    + by apply (load_tokens_after_loop fs data_path split src tgt src_dict
                  tgt_dict combine upsample_primary max_source_positions
                  prepend_bos truncate_source append_source_id srcs tgts) in Hloop
        as [_ ?].
    + by apply load_shards_finishes in Hloop.
  - simpl in H. by destruct (append_lang_ids _ _ _ _ _ _ _ _) as [[? ?] ?].
Qed.

Lemma attr_finishes (ns : gmap string PyVal) (name : string) :
  attr ns name ≠ Unfinished.
Proof. unfold attr. by destruct (ns !! name). Qed.

Lemma attr_as_str_finishes (ns : gmap string PyVal) (name : string) :
  attr ns name ≫= as_str ≠ Unfinished.
Proof. unfold attr. destruct (ns !! name) as [[]|]; done. Qed.

Lemma attr_as_int_finishes (ns : gmap string PyVal) (name : string) :
  attr ns name ≫= as_int ≠ Unfinished.
Proof. unfold attr. destruct (ns !! name) as [[]|]; done. Qed.

Lemma mapM_Unfinished {A B} (f : A -> Result B) (l : list A) :
  mapM f l = Unfinished → ∃ x, x ∈ l ∧ f x = Unfinished.
Proof.
  induction l as [|x l IH]; simpl; [done|].
  intros H. apply bind_Unfinished in H as [H | (y & _ & H)].
  - exists x. split; [apply list_elem_of_here | exact H].
  - apply bind_Unfinished in H as [H | (k & _ & H)]; [|done].
    destruct (IH H) as (x' & Hin & Hx'). exists x'.
    split; [by apply list_elem_of_further | exact Hx'].
Qed.

Lemma load_lang_finishes (fs : gmap string (list (list Z))) (self : Task)
    (data_path split src tgt : string) (combine : bool) (lang : string) :
  load_lang fs self data_path split src tgt combine lang ≠ Unfinished.
Proof.
  unfold load_lang. intros H.
  repeat (apply bind_Unfinished in H as [H | (? & _ & H)];
          [by apply attr_finishes in H|]).
  by apply load_langpair_sumdataset_finishes in H.
Qed.

Lemma register_langs_finishes (split : string) (languages : list string)
    (lang_datasets : list LanguagePair) :
  ∀ (lang_id : nat) (lang_splits : list string) (datasets : gmap string Dataset),
    register_langs split languages lang_id lang_datasets lang_splits datasets
    ≠ Unfinished.
Proof.
  induction lang_datasets as [|d rest IH]; intros lang_id lang_splits datasets;
    simpl; [done|].
  destruct (languages !! lang_id); [apply IH | done].
Qed.

Lemma pair_getitem_finishes (d : LanguagePair) (i : nat) :
  pair_getitem d i ≠ Unfinished.
Proof.
  unfold pair_getitem. destruct (items (pair_src d) !! i); [|done].
  destruct (pair_tgt d) as [t|]; [|done]. by destruct (items t !! i).
Qed.

Lemma concat_getitem_finishes (ds : list LanguagePair) :
  ∀ i : nat, concat_getitem ds i ≠ Unfinished.
Proof.
  induction ds as [|p ds IH]; intros i; simpl; [done|].
  case_decide; [apply pair_getitem_finishes | apply IH].
Qed.

(** [load_dataset] always comes to an end, with a task or an exception: the
    loop over the shards of each language, [for k in itertools.count()],
    stops because a disk holds finitely many corpora and no two shards share
    a file. *)
Theorem load_dataset_finishes
    (fs : gmap string (list (list Z))) (permutation : Z -> nat -> list Z)
    (self : Task) (split : string) (epoch : Z) (combine : bool) :
  load_dataset fs permutation self split epoch combine ≠ Unfinished.
Proof.
  unfold load_dataset. intros H.
  apply bind_Unfinished in H as [H | (data & _ & H)];
    [by apply attr_as_str_finishes in H|].
  apply bind_Unfinished in H as [H | ([] & _ & H)];
    [by destruct (bool_decide _)|].
  apply bind_Unfinished in H as [H | (data_path & _ & H)];
    [by destruct (_ !! _)|].
  apply bind_Unfinished in H as [H | (src & _ & H)];
    [by apply attr_as_str_finishes in H|].
  apply bind_Unfinished in H as [H | (tgt & _ & H)];
    [by apply attr_as_str_finishes in H|].
  apply bind_Unfinished in H as [H | (lang_datasets & _ & H)].
  { apply mapM_Unfinished in H as (lang & _ & H).
    by apply load_lang_finishes in H. }
  apply bind_Unfinished in H as [H | ([] & _ & H)];
    [by destruct (bool_decide _)|].
  apply bind_Unfinished in H as [H | ([lang_splits ds] & _ & H)];
    [by apply register_langs_finishes in H|].
  apply bind_Unfinished in H as [H | (valid & _ & H)];
    [by apply attr_as_str_finishes in H|].
  apply bind_Unfinished in H as [H | (seed & _ & H)];
    [by apply attr_as_int_finishes in H|].
  apply bind_Unfinished in H as [H | ([] & _ & H)];
    [unfold np_random_seed in H; by destruct (bool_decide _)|].
  apply bind_Unfinished in H as [H | (sample & _ & H)]; [|done].
  simpl in H. by apply concat_getitem_finishes in H.
Qed.

(** ** What [load_dataset] leaves alone *)

Lemma register_lookup_other {E} (wrap : E -> Dataset) (split name : string)
    (languages : list string) :
  (∀ lang, lang ∈ languages → name ≠ split +:+ "_" +:+ lang) →
  ∀ (ds : list E) (m : gmap string Dataset),
    foldl (fun m p => <[split +:+ "_" +:+ p.1 := wrap p.2]> m) m
      (zip languages ds) !! name
    = m !! name.
Proof.
  induction languages as [|lang languages IH]; intros Hname ds m; [done|].
  destruct ds as [|d ds]; [done|]. simpl.
  rewrite IH.
  - apply lookup_insert_ne. intros Heq. symmetry in Heq. revert Heq.
    apply Hname, list_elem_of_here.
  - intros lang' Hin. by apply Hname, list_elem_of_further.
Qed.

(** [load_dataset] writes [datasets[split]] and [datasets[split_lang]] for
    the languages of the task and nothing else: every dataset registered
    under another name is kept, and so are the dictionaries and the list of
    languages. *)
Theorem load_dataset_keeps_other_datasets
    (fs : gmap string (list (list Z))) (permutation : Z -> nat -> list Z)
    (self : Task) (split : string) (epoch : Z) (combine : bool) (self' : Task) :
  load_dataset fs permutation self split epoch combine = Return self' →
  (∀ name : string,
     name ≠ split →
     (∀ lang, lang ∈ langs_for_summ self → name ≠ split +:+ "_" +:+ lang) →
     datasets self' !! name = datasets self !! name)
  ∧ src_dict self' = src_dict self
  ∧ tgt_dict self' = tgt_dict self
  ∧ langs_for_summ self' = langs_for_summ self.
Proof.
  intros H.
  apply load_dataset_Return in H
    as (data & data_path & src & tgt & valid_subset & lang_datasets
        & _ & _ & _ & _ & _ & _ & _ & Hdatasets & _ & Hsrc & Htgt & Hlangs).
  split; [|done].
  intros name Hsplit Hlang. rewrite Hdatasets.
  rewrite lookup_insert_ne by done.
  by apply register_lookup_other.
Qed.

Lemma load_dataset_keeps_other_datasets_witness :
  ∃ self' : Task,
    load_dataset Demo.disk Demo.permutation Demo.task "train" 1 true
    = Return self'
    ∧ (∀ name : string,
         name ≠ "train" →
         (∀ lang, lang ∈ langs_for_summ Demo.task
                  → name ≠ "train" +:+ "_" +:+ lang) →
         datasets self' !! name = datasets Demo.task !! name)
    ∧ src_dict self' = src_dict Demo.task
    ∧ tgt_dict self' = tgt_dict Demo.task
    ∧ langs_for_summ self' = langs_for_summ Demo.task.
Proof.
  eexists. split; [vm_compute; reflexivity|].
  apply (load_dataset_keeps_other_datasets Demo.disk Demo.permutation
           Demo.task "train" 1 true).
  vm_compute. reflexivity.
Defined.

(** ** The data path of an epoch *)



(** A seed numpy refuses. *)
Example load_dataset_seed_out_of_range :
  load_dataset Demo.disk Demo.permutation
    {| args := <["seed" := VInt (2 ^ 32 - 1)]> Demo.namespace;
       src_dict := Demo.dict; tgt_dict := Demo.dict;
       langs_for_summ := ["en_XX"; "de_DE"]; datasets := ∅ |}
    "train" 1 true
  = Raise ValueError.
Proof. vm_compute. reflexivity. Qed.

(** ** The languages of a task *)



Example init_demo :
  init Demo.namespace Demo.dict Demo.dict = Return Demo.task.
Proof. reflexivity. Qed.

(** ** The first example *)

(** [load_dataset] ends by printing the first example of the split, so it
    returns only when there is one: the registered dataset is not empty and
    its example 0 can be read; with nothing but empty corpora the call
    raises. *)
Theorem load_dataset_has_first_example
    (fs : gmap string (list (list Z))) (permutation : Z -> nat -> list Z)
    (self : Task) (split : string) (epoch : Z) (combine : bool) (self' : Task) :
  load_dataset fs permutation self split epoch combine = Return self' →
  ∃ (dataset : Dataset) (sample : Sample),
    datasets self' !! split = Some dataset
    ∧ getitem dataset 0 = Return sample
    ∧ (0 < dataset_len dataset)%nat.
Proof.
  unfold load_dataset. intros H.
  apply bind_Return in H as (data & _ & H).
  apply bind_Return in H as ([] & _ & H).
  apply bind_Return in H as (data_path & _ & H).
  apply bind_Return in H as (src & _ & H).
  apply bind_Return in H as (tgt & _ & H).
  apply bind_Return in H as (lang_datasets & _ & H).
  apply bind_Return in H as ([] & _ & H).
  apply bind_Return in H as ([lang_splits ds] & _ & H).
  apply bind_Return in H as (valid_subset & _ & H).
  apply bind_Return in H as (seed & _ & H).
  apply bind_Return in H as ([] & _ & H).
  apply bind_Return in H as (sample & Hsample & H).
  injection H as <-. simpl.
  exists (ConcatDataset lang_datasets), sample.
  split; [apply lookup_insert_eq|]. split; [exact Hsample|].
  simpl in *.
  destruct (decide (0 < sum_list ((fun p => len (pair_src p)) <$> lang_datasets))%nat)
    as [Hpos|Hzero]; [exact Hpos|].
  rewrite concat_getitem_outside in Hsample by lia. discriminate.
Qed.

Lemma load_dataset_has_first_example_witness :
  ∃ self' : Task,
    load_dataset Demo.disk Demo.permutation Demo.task "train" 1 true
    = Return self'
    ∧ ∃ (dataset : Dataset) (sample : Sample),
        datasets self' !! "train" = Some dataset
        ∧ getitem dataset 0 = Return sample
        ∧ (0 < dataset_len dataset)%nat.
Proof.
  eexists. split; [vm_compute; reflexivity|].
  apply (load_dataset_has_first_example Demo.disk Demo.permutation Demo.task
           "train" 1 true).
  vm_compute. reflexivity.
Defined.

(** A disk whose only corpora are empty: the call raises at the print. *)
Example load_dataset_empty_corpora :
  load_dataset
    (list_to_map [("data/en/train.doc-sum.doc", []);
                  ("data/de/train.doc-sum.doc", [])])
    Demo.permutation Demo.task "train" 1 false
  = Raise IndexError.
Proof. vm_compute. reflexivity. Qed.

(** ** What truncation leaves alone *)

(** [truncate_source] works on the source side only: the truncating run
    succeeds only if the run without truncation does, and the two datasets
    have the same target sequences, target sizes, end-of-sentence token and
    number of examples. *)
Theorem truncate_source_keeps_targets
    (fs : gmap string (list (list Z))) (data_path split : string)
    (src : string) (src_dict : Dictionary) (src_lang : PyVal)
    (tgt : string) (tgt_dict : Dictionary) (tgt_lang : PyVal)
    (combine : bool) (dataset_impl upsample_primary : PyVal)
    (left_pad_source left_pad_target : PyVal) (msp : Z)
    (max_target_positions prepend_bos load_alignments truncate_source : PyVal)
    (append_source_id : bool) (trg_prepend : PyVal) (d : LanguagePair) :
  truthy truncate_source = true →
  load_langpair_sumdataset fs data_path split src src_dict src_lang
    tgt tgt_dict tgt_lang combine dataset_impl upsample_primary
    left_pad_source left_pad_target (VInt msp) max_target_positions
    prepend_bos load_alignments truncate_source append_source_id trg_prepend
  = Return d →
  ∃ d0 : LanguagePair,
    load_langpair_sumdataset fs data_path split src src_dict src_lang
      tgt tgt_dict tgt_lang combine dataset_impl upsample_primary
      left_pad_source left_pad_target (VInt msp) max_target_positions
      prepend_bos load_alignments (VBool false) append_source_id trg_prepend
    = Return d0
    ∧ pair_tgt d = pair_tgt d0
    ∧ pair_tgt_sizes d = pair_tgt_sizes d0
    ∧ pair_eos d = pair_eos d0
    ∧ pair_align_dataset d = pair_align_dataset d0
    ∧ len (pair_src d) = len (pair_src d0).
Proof.
  intros Htr. unfold load_langpair_sumdataset.
  destruct (load_tokens fs data_path split src src_dict tgt tgt_dict combine
              upsample_primary (VInt msp) prepend_bos truncate_source
              append_source_id) as [e|[s t]|] eqn:Hload; simpl; try discriminate.
  apply load_tokens_truncated in Hload as (s0 & Hload0 & ->); [|exact Htr].
  assert (Hload0' :
    load_tokens fs data_path split src src_dict tgt tgt_dict combine
      upsample_primary (VInt msp) prepend_bos (VBool false) append_source_id
    = Return (s0, t)).
  { rewrite <- Hload0. reflexivity. }
  rewrite Hload0'. simpl.
  unfold append_lang_ids. destruct append_source_id; intros [= <-];
    (eexists; split; [reflexivity|]); simpl;
    unfold len; simpl; by rewrite !length_fmap.
Qed.

Lemma truncate_source_keeps_targets_witness :
  ∃ d : LanguagePair,
    load_langpair_sumdataset Demo.disk "data/en" "train" "doc" Demo.dict
      (VStr "en_XX") "sum" Demo.dict (VStr "en_XX") true VNone (VInt 1)
      (VBool true) (VBool false) (VInt 4) (VInt 1024)
      (VBool false) (VBool false) (VBool true) true (VBool false)
    = Return d
    ∧ ∃ d0 : LanguagePair,
        load_langpair_sumdataset Demo.disk "data/en" "train" "doc" Demo.dict
          (VStr "en_XX") "sum" Demo.dict (VStr "en_XX") true VNone (VInt 1)
          (VBool true) (VBool false) (VInt 4) (VInt 1024)
          (VBool false) (VBool false) (VBool false) true (VBool false)
        = Return d0
        ∧ pair_tgt d = pair_tgt d0
        ∧ pair_tgt_sizes d = pair_tgt_sizes d0
        ∧ pair_eos d = pair_eos d0
        ∧ pair_align_dataset d = pair_align_dataset d0
        ∧ len (pair_src d) = len (pair_src d0).
Proof.
  eexists. split; [vm_compute; reflexivity|].
  eapply (truncate_source_keeps_targets Demo.disk "data/en" "train" "doc"
            Demo.dict (VStr "en_XX") "sum" Demo.dict (VStr "en_XX") true VNone
            (VInt 1) (VBool true) (VBool false) 4 (VInt 1024)
            (VBool false) (VBool false) (VBool true) true (VBool false)).
  - reflexivity.
  - vm_compute. reflexivity.
Defined.

(** ** Sizes at inference *)

(** [build_dataset_for_inference] hands [src_lengths] on as the sizes of the
    dataset without counting the appended language id: when [src_lengths]
    are the lengths of the input sequences, every sequence of the dataset is
    one token longer than its recorded size. *)
Theorem build_dataset_for_inference_sizes
    (self : Task) (src_tokens : list (list Z)) (doc_lang : PyVal) :
  args self !! "doc_lang" = Some doc_lang →
  ∃ d : LanguagePair,
    build_dataset_for_inference self src_tokens
      ((fun s_t => Z.of_nat (length s_t)) <$> src_tokens)
    = Return d
    ∧ pair_src_sizes d = (fun s_t => Z.of_nat (length s_t)) <$> src_tokens
    ∧ Forall2 (fun s size => Z.of_nat (length s) = size + 1)
        (items (pair_src d)) (pair_src_sizes d).
Proof.
  intros Hdoc. unfold build_dataset_for_inference, attr. rewrite Hdoc. simpl.
  eexists. split; [reflexivity|]. simpl. split; [reflexivity|].
  rewrite append_lang_id_fmap. simpl.
  apply Forall2_fmap, Forall_Forall2_diag, Forall_forall.
  intros s _. rewrite length_app. simpl. lia.
Qed.

Lemma build_dataset_for_inference_sizes_witness :
  ∃ d : LanguagePair,
    build_dataset_for_inference Demo.task [[5; 6; 2]; [7; 2]]
      ((fun s_t => Z.of_nat (length s_t)) <$> [[5; 6; 2]; [7; 2]])
    = Return d
    ∧ pair_src_sizes d
      = (fun s_t => Z.of_nat (length s_t)) <$> [[5; 6; 2]; [7; 2]]
    ∧ Forall2 (fun s size => Z.of_nat (length s) = size + 1)
        (items (pair_src d)) (pair_src_sizes d).
Proof.
  apply (build_dataset_for_inference_sizes Demo.task [[5; 6; 2]; [7; 2]]
           (VStr "en_XX")).
  reflexivity.
Defined.

(** ** Corpora a returning call has found *)

(** When [load_dataset] returns, the base shard of every language of the
    task exists: under the directory of the language code in the data path
    of the epoch there is a corpus [split.src-tgt.src] or
    [split.tgt-src.src]. *)
Theorem load_dataset_found_base_shards
    (fs : gmap string (list (list Z))) (permutation : Z -> nat -> list Z)
    (self : Task) (split : string) (epoch : Z) (combine : bool) (self' : Task) :
  load_dataset fs permutation self split epoch combine = Return self' →
  ∃ data data_path src tgt : string,
    args self !! "data" = Some (VStr data)
    ∧ Py.split ":" data
        !! Z.to_nat ((epoch - 1) `mod` Z.of_nat (length (Py.split ":" data)))
      = Some data_path
    ∧ args self !! "source_lang" = Some (VStr src)
    ∧ args self !! "target_lang" = Some (VStr tgt)
    ∧ ∀ lang : string,
        lang ∈ langs_for_summ self →
        let lang_path := Py.path_join data_path (lang_code lang) in
        is_Some (fs !! Py.path_join lang_path
                         (split +:+ "." +:+ src +:+ "-" +:+ tgt +:+ "." +:+ src))
        ∨ is_Some (fs !! Py.path_join lang_path
                           (split +:+ "." +:+ tgt +:+ "-" +:+ src +:+ "." +:+ src)).
Proof.
  intros H.
  apply load_dataset_Return in H
    as (data & data_path & src & tgt & valid_subset & lang_datasets
        & Hdata & Hpath & Hsrc & Htgt & Hlangs & _).
  exists data, data_path, src, tgt. repeat (split; [done|]).
  intros lang Hin lang_path.
  apply list_elem_of_lookup in Hin as [i Hi].
  destruct (Forall2_lookup_l _ _ _ _ _ Hlangs Hi) as (d & _ & Hload).
  apply load_lang_Return in Hload
    as (fix2x & impl & up & lps & lpt & trunc & align & _ & _ & _ & Hload).
  destruct (fs !! Py.path_join lang_path
                    (split +:+ "." +:+ src +:+ "-" +:+ tgt +:+ "." +:+ src))
    eqn:H1; [left; by eexists|].
  destruct (fs !! Py.path_join lang_path
                    (split +:+ "." +:+ tgt +:+ "-" +:+ src +:+ "." +:+ src))
    eqn:H2; [right; by eexists|].
  exfalso.
  assert (Hraise : Return d = Raise FileNotFoundError); [|discriminate].
  rewrite <- Hload. by apply load_langpair_sumdataset_not_found.
Qed.

Lemma load_dataset_found_base_shards_witness :
  ∃ self' : Task,
    load_dataset Demo.disk Demo.permutation Demo.task "train" 1 true
    = Return self'
    ∧ ∃ data data_path src tgt : string,
        args Demo.task !! "data" = Some (VStr data)
        ∧ Py.split ":" data
            !! Z.to_nat ((1 - 1) `mod` Z.of_nat (length (Py.split ":" data)))
          = Some data_path
        ∧ args Demo.task !! "source_lang" = Some (VStr src)
        ∧ args Demo.task !! "target_lang" = Some (VStr tgt)
        ∧ ∀ lang : string,
            lang ∈ langs_for_summ Demo.task →
            let lang_path := Py.path_join data_path (lang_code lang) in
            is_Some (Demo.disk !! Py.path_join lang_path
                       ("train" +:+ "." +:+ src +:+ "-" +:+ tgt +:+ "." +:+ src))
            ∨ is_Some (Demo.disk !! Py.path_join lang_path
                         ("train" +:+ "." +:+ tgt +:+ "-" +:+ src +:+ "." +:+ src)).
Proof.
  eexists. split; [vm_compute; reflexivity|].
  eapply (load_dataset_found_base_shards Demo.disk Demo.permutation Demo.task
            "train" 1 true).
  vm_compute. reflexivity.
Defined.

(** ** Examples handed to the training loop *)

Lemma pair_getitem_Return (p : LanguagePair) (k : nat) (sample : Sample) :
  pair_getitem p k = Return sample →
  items (pair_src p) !! k = Some (source sample)
  ∧ ∀ t : list Z,
      target sample = Some t →
      ∃ td : TokenDataset, pair_tgt p = Some td ∧ items td !! k = Some t.
Proof.
  unfold pair_getitem.
  destruct (items (pair_src p) !! k) as [s|]; [|done].
  destruct (pair_tgt p) as [td|].
  - destruct (items td !! k) as [x|] eqn:Hx; [|done].
    intros [= <-]. simpl. split; [done|]. intros t [= <-]. by exists td.
  - intros [= <-]. simpl. split; [done|]. by intros t.
Qed.

Lemma concat_getitem_Return (ds : list LanguagePair) :
  ∀ (i : nat) (sample : Sample),
    concat_getitem ds i = Return sample →
    ∃ (j k : nat) (p : LanguagePair),
      ds !! j = Some p ∧ pair_getitem p k = Return sample.
Proof.
  induction ds as [|q ds IH]; intros i sample; simpl; [done|].
  case_decide.
  - intros H'. by exists O, i, q.
  - intros H'. apply IH in H' as (j & k & p & Hj & Hk). by exists (S j), k, p.
Qed.

(** Every example of the split registered by [load_dataset] carries its
    language ids: its source ends with the source language-id token of one of
    the task's languages, and its target, if it has one, ends with the id of
    that language in the target dictionary. *)
Theorem load_dataset_examples_end_with_language_ids
    (fs : gmap string (list (list Z))) (permutation : Z -> nat -> list Z)
    (self : Task) (split : string) (epoch : Z) (combine : bool) (self' : Task) :
  load_dataset fs permutation self split epoch combine = Return self' →
  ∃ (fix2x : PyVal) (dataset : Dataset),
    args self !! "fix2x" = Some fix2x
    ∧ datasets self' !! split = Some dataset
    ∧ ∀ (i : nat) (sample : Sample),
        getitem dataset i = Return sample →
        ∃ lang : string,
          lang ∈ langs_for_summ self
          ∧ last (source sample)
            = Some (index (src_dict self)
                      (lang_symbol (if bool_decide (fix2x ≠ VStr "")
                                    then fix2x else VStr lang)))
          ∧ ∀ t : list Z,
              target sample = Some t →
              last t = Some (index (tgt_dict self) (lang_symbol (VStr lang))).
Proof.
  intros H.
  apply load_dataset_Return in H
    as (data & data_path & src & tgt & valid_subset & lang_datasets
        & _ & _ & _ & _ & Hlangs & Hsome & _ & Hdatasets & _).
  pose proof Hlangs as Hfirst.
  destruct Hfirst as [|lang0 d0 langs ds Hlang0 _]; [simpl in Hsome; lia|].
  apply load_lang_Return in Hlang0
    as (fix2x & _ & _ & _ & _ & _ & _ & Hfix & _).
  exists fix2x. eexists.
  split; [exact Hfix|]. split; [by rewrite Hdatasets, lookup_insert_eq|].
  intros i sample Hsample. cbn [getitem] in Hsample.
  apply concat_getitem_Return in Hsample as (j & k & p & Hj & Hk).
  destruct (Forall2_lookup_r _ _ _ _ _ Hlangs Hj) as (lang & Hlang & Hload).
  exists lang. split; [by eapply list_elem_of_lookup_2|].
  apply load_lang_Return in Hload
    as (fix2x' & impl & up & lps & lpt & trunc & align & Hfix' & _ & _ & Hload).
  rewrite Hfix in Hfix'. injection Hfix' as <-.
  apply load_langpair_sumdataset_Return in Hload as (s0 & t0 & _ & Hids).
  apply append_lang_ids_true in Hids as (Hsrc & Htgt & _).
  apply pair_getitem_Return in Hk as [Hs Ht]. split.
  - rewrite Hsrc, list_lookup_fmap in Hs.
    destruct (items s0 !! k) as [x|]; [|done]. injection Hs as <-.
    apply last_snoc.
  - intros t Htarget. destruct (Ht t Htarget) as (td & Htd & Hk').
    rewrite Htd in Htgt. destruct t0 as [t1|]; [|done].
    injection Htgt as Htgt. rewrite Htgt, list_lookup_fmap in Hk'.
    destruct (items t1 !! k) as [x|]; [|done]. injection Hk' as <-.
    by rewrite app_assoc, last_snoc.
Qed.

Lemma load_dataset_examples_end_with_language_ids_witness :
  ∃ self' : Task,
    load_dataset Demo.disk Demo.permutation Demo.task "train" 1 true
    = Return self'
    ∧ ∃ (fix2x : PyVal) (dataset : Dataset),
        args Demo.task !! "fix2x" = Some fix2x
        ∧ datasets self' !! "train" = Some dataset
        ∧ ∀ (i : nat) (sample : Sample),
            getitem dataset i = Return sample →
            ∃ lang : string,
              lang ∈ langs_for_summ Demo.task
              ∧ last (source sample)
                = Some (index (src_dict Demo.task)
                          (lang_symbol (if bool_decide (fix2x ≠ VStr "")
                                        then fix2x else VStr lang)))
              ∧ ∀ t : list Z,
                  target sample = Some t →
                  last t
                  = Some (index (tgt_dict Demo.task) (lang_symbol (VStr lang))).
Proof.
  eexists. split; [vm_compute; reflexivity|].
  apply (load_dataset_examples_end_with_language_ids Demo.disk
           Demo.permutation Demo.task "train" 1 true).
  vm_compute. reflexivity.
Defined.

(** ** Substrings and replacement *)

Lemma contains_unfold (sub s : string) :
  Py.contains sub s
  = Py.startswith sub s
    || match s with EmptyString => false | String _ s' => Py.contains sub s' end.
Proof. by destruct s. Qed.

Lemma startswith_app (p b : string) : Py.startswith p (p +:+ b) = true.
Proof.
  induction p as [|a p IH]; [by destruct b|].
  rewrite string_app_cons. simpl. by rewrite decide_True.
Qed.

Lemma startswith_inv (p s : string) :
  Py.startswith p s = true → ∃ b, s = p +:+ b.
Proof.
  revert s. induction p as [|a p IH]; intros s; [by exists s|].
  destruct s as [|c s]; simpl; [done|].
  case_decide as Hac; [|done]. subst c.
  intros H. destruct (IH s H) as [b ->]. by exists b.
Qed.

(** [sub in s] holds exactly when [s] is [sub] between two strings. *)
Lemma contains_iff (sub s : string) :
  Py.contains sub s = true ↔ ∃ a b, s = a +:+ sub +:+ b.
Proof.
  split.
  - induction s as [|c s IH]; rewrite contains_unfold, orb_true_iff.
    + intros [H|H]; [|done]. apply startswith_inv in H as [b ->].
      by exists "", b.
    + intros [H|H].
      * apply startswith_inv in H as [b ->]. by exists "", b.
      * destruct (IH H) as (a & b & ->). by exists (String c a), b.
  - intros (a & b & ->). induction a as [|c a IH].
    + rewrite contains_unfold. change ("" +:+ ?x) with x.
      by rewrite startswith_app.
    + rewrite string_app_cons, contains_unfold, IH. apply orb_true_r.
Qed.

Lemma contains_trans (x y s : string) :
  Py.contains x y = true → Py.contains y s = true → Py.contains x s = true.
Proof.
  rewrite !contains_iff. intros (a & b & ->) (a' & b' & ->).
  exists (a' +:+ a), (b +:+ b'). by rewrite !string_app_assoc.
Qed.

(** An element of a joined list occurs in the joined string. *)
Lemma join_contains (sep x : string) (l : list string) :
  x ∈ l → Py.contains x (Py.join sep l) = true.
Proof.
  induction l as [|y l IH]; intros Hin; [by apply elem_of_nil in Hin|].
  apply elem_of_cons in Hin as [<-|Hin].
  - apply contains_iff. destruct l as [|z l].
    + exists "", "". simpl. by rewrite string_app_nil_r.
    + exists "", (sep +:+ Py.join sep (z :: l)). done.
  - destruct l as [|z l]; [by apply elem_of_nil in Hin|].
    apply IH, contains_iff in Hin as (a & b & Hab).
    apply contains_iff. exists (y +:+ sep +:+ a), b.
    change (Py.join sep (y :: z :: l)) with (y +:+ sep +:+ Py.join sep (z :: l)).
    rewrite Hab. by rewrite !string_app_assoc.
Qed.

(** Where [old] occurs, the replacement puts [new]. *)
Lemma replace_contains_new (old new s : string) :
  Py.contains old s = true → Py.contains new (Py.replace old new s) = true.
Proof.
  intros Hin. apply contains_iff. unfold Py.replace.
  destruct old as [|o old].
  - destruct s as [|c s]; simpl.
    + exists "", "". by rewrite string_app_nil_r.
    + by exists "", (String c (Py.replace_empty new s)).
  - induction s as [|c s IH]; [done|].
    rewrite contains_unfold, orb_true_iff in Hin.
    cbn [Py.replace_scan].
    destruct (Py.startswith (String o old) (String c s)) eqn:Hstart.
    + by eexists "", _.
    + destruct Hin as [Hin|Hin]; [done|].
      destruct (IH Hin) as (a & b & ->). by exists (String c a), b.
Qed.

(** If [split] occurs in [args.valid_subset] when [load_dataset] is called,
    then afterwards [args.valid_subset] names the split and the per-language
    split of every language of the task: [split] and each
    [split + '_' + lang] occur in it. *)
Theorem load_dataset_valid_subset_names_languages
    (fs : gmap string (list (list Z))) (permutation : Z -> nat -> list Z)
    (self : Task) (split : string) (epoch : Z) (combine : bool) (self' : Task)
    (valid_subset : string) :
  args self !! "valid_subset" = Some (VStr valid_subset) →
  Py.contains split valid_subset = true →
  load_dataset fs permutation self split epoch combine = Return self' →
  ∃ valid_subset' : string,
    args self' !! "valid_subset" = Some (VStr valid_subset')
    ∧ Py.contains split valid_subset' = true
    ∧ ∀ lang : string,
        lang ∈ langs_for_summ self →
        Py.contains (split +:+ "_" +:+ lang) valid_subset' = true.
Proof.
  intros Hvalid Hin H.
  apply load_dataset_Return in H
    as (data & data_path & src & tgt & valid_subset0 & lang_datasets
        & _ & _ & _ & _ & _ & _ & Hvalid0 & _ & Hargs & _).
  rewrite Hvalid in Hvalid0. injection Hvalid0 as <-.
  rewrite Hin in Hargs. eexists. split; [by rewrite Hargs, lookup_insert_eq|].
  split.
  - eapply contains_trans; [|by apply replace_contains_new].
    apply join_contains, list_elem_of_here.
  - intros lang Hlang.
    eapply contains_trans; [|by apply replace_contains_new].
    apply join_contains, list_elem_of_further, list_elem_of_fmap.
    by exists lang.
Qed.

Lemma load_dataset_valid_subset_names_languages_witness :
  ∃ self' : Task,
    load_dataset Demo.disk Demo.permutation Demo.task "train" 1 true
    = Return self'
    ∧ ∃ valid_subset' : string,
        args self' !! "valid_subset" = Some (VStr valid_subset')
        ∧ Py.contains "train" valid_subset' = true
        ∧ ∀ lang : string,
            lang ∈ langs_for_summ Demo.task →
            Py.contains ("train" +:+ "_" +:+ lang) valid_subset' = true.
Proof.
  eexists. split; [vm_compute; reflexivity|].
  apply (load_dataset_valid_subset_names_languages Demo.disk Demo.permutation
           Demo.task "train" 1 true _ "train,valid").
  - reflexivity.
  - reflexivity.
  - vm_compute. reflexivity.
Defined.


(** *** What [str.replace] does *)








Example replace_pieces_demo :
  Py.replace "valid" "valid,valid_en_XX" "test,valid,valid"
  = foldr (fun p acc => p +:+ "valid,valid_en_XX" +:+ acc) "" ["test,"; ","].
Proof. reflexivity. Qed.

(** ** The validation subsets *)



Example load_dataset_demo_valid_subset :
  (self' ← load_dataset Demo.disk Demo.permutation Demo.task "train" 1 true;
   Return (args self' !! "valid_subset", dom (datasets self')))
  = Return (Some (VStr "train,train_en_XX,train_de_DE,valid"),
            {["train"; "train_en_XX"; "train_de_DE"]}).
Proof. vm_compute. reflexivity. Qed.

(** C6 as stated fails where occurrences overlap: in [valid_subset = 'aaa']
    the split ['aa'] occurs at offset 0 and at offset 1; the scan replaces
    the first occurrence and passes over the second, so the text before the
    second occurrence, ['a'], is not followed by the joined list. *)
Lemma load_dataset_overlapping_occurrence :
  ∃ self' : Task,
    load_dataset Demo.overlap_disk Demo.permutation Demo.overlap_task "aa" 1
      false
    = Return self'
    ∧ args Demo.overlap_task !! "valid_subset"
      = Some (VStr ("a" +:+ "aa" +:+ ""))
    ∧ args self' !! "valid_subset" = Some (VStr ("aa,aa_en_XX" +:+ "a"))
    ∧ ¬ ∃ b : string, "aa,aa_en_XX" +:+ "a" = "a" +:+ "aa,aa_en_XX" +:+ b.
Proof.
  eexists. split; [vm_compute; reflexivity|].
  split; [reflexivity|]. split; [vm_compute; reflexivity|].
  intros [b Hb]. discriminate.
Qed.

(** ** The files of a shard *)

(** The corpora of shard [k] are read under one prefix, the name of the
    shard followed by the two languages in one of the two orders: the source
    corpus is the file [prefix + src], which exists, and the target corpus
    the file [prefix + tgt], if there is one. The order [src-tgt] is taken
    whenever its source corpus exists. *)
Theorem shard_files
    (fs : gmap string (list (list Z))) (data_path split src tgt : string)
    (k : nat) (s : TokenDataset) (t : option TokenDataset) :
  shard fs data_path split src tgt k = Some (s, t) →
  ∃ (x y : string) (corpus : list (list Z)),
    ((x = src ∧ y = tgt) ∨ (x = tgt ∧ y = src))
    ∧ fs !! (Py.path_join data_path
               (split_k split k +:+ "." +:+ x +:+ "-" +:+ y +:+ ".") +:+ src)
      = Some corpus
    ∧ s = indexed corpus
    ∧ t = indexed
            <$> fs !! (Py.path_join data_path
                         (split_k split k +:+ "." +:+ x +:+ "-" +:+ y +:+ ".")
                       +:+ tgt)
    ∧ (is_Some (fs !! (Py.path_join data_path
                         (split_k split k +:+ "." +:+ src +:+ "-" +:+ tgt +:+ ".")
                       +:+ src))
       → x = src ∧ y = tgt).
Proof.
  unfold shard, infer_prefix, split_exists, dataset_exists, load_indexed_dataset.
  fold (pair_prefix (split_k split k) src tgt).
  fold (pair_prefix (split_k split k) tgt src).
  rewrite !path_join_app by apply pair_prefix_nonempty.
  case_bool_decide as H1.
  - simpl. destruct H1 as [corpus Hcorpus]. rewrite Hcorpus. simpl.
    intros [= <- <-]. exists src, tgt, corpus.
    split; [by left|]. fold (pair_prefix (split_k split k) src tgt).
    by rewrite Hcorpus.
  - case_bool_decide as H2; simpl; [|done].
    destruct H2 as [corpus Hcorpus]. rewrite Hcorpus. simpl.
    intros [= <- <-]. exists tgt, src, corpus.
    split; [by right|]. fold (pair_prefix (split_k split k) tgt src).
    fold (pair_prefix (split_k split k) src tgt).
    by rewrite Hcorpus.
Qed.

Lemma shard_files_witness :
  ∃ (x y : string) (corpus : list (list Z)),
    ((x = "doc" ∧ y = "sum") ∨ (x = "sum" ∧ y = "doc"))
    ∧ Demo.disk !! (Py.path_join "data/en"
                      (split_k "train" 1 +:+ "." +:+ x +:+ "-" +:+ y +:+ ".")
                    +:+ "doc")
      = Some corpus
    ∧ indexed [[30; 2]] = indexed corpus
    ∧ Some (indexed [[31; 2]])
      = indexed
          <$> Demo.disk !! (Py.path_join "data/en"
                              (split_k "train" 1 +:+ "." +:+ x +:+ "-" +:+ y
                               +:+ ".")
                            +:+ "sum")
    ∧ (is_Some (Demo.disk !! (Py.path_join "data/en"
                                (split_k "train" 1 +:+ "." +:+ "doc" +:+ "-"
                                 +:+ "sum" +:+ ".")
                              +:+ "doc"))
       → x = "doc" ∧ y = "sum").
Proof.
  apply (shard_files Demo.disk "data/en" "train" "doc" "sum" 1
           (indexed [[30; 2]]) (Some (indexed [[31; 2]]))).
  vm_compute. reflexivity.
Defined.

(** ** Upsampling *)

Lemma load_shards_without_combine_one
    (fs : gmap string (list (list Z))) (data_path split src tgt : string)
    (srcs tgts : list TokenDataset) :
  load_shards fs (shard_fuel fs) data_path split src tgt false O [] []
  = Return (srcs, tgts) →
  ∃ s : TokenDataset, srcs = [s].
Proof.
  unfold shard_fuel. simpl.
  destruct (infer_prefix fs data_path split src tgt 0) as [prefix|]; [|done].
  destruct (load_indexed_dataset fs (prefix +:+ src)) as [s|]; [|done].
  intros [= <- _]. by exists s.
Qed.

(** Without [combine] there is one shard and nothing to upsample:
    [load_langpair_sumdataset] gives the same result whatever
    [upsample_primary] is. *)
Theorem upsample_primary_unused_without_combine
    (fs : gmap string (list (list Z))) (data_path split : string)
    (src : string) (src_dict : Dictionary) (src_lang : PyVal)
    (tgt : string) (tgt_dict : Dictionary) (tgt_lang : PyVal)
    (dataset_impl upsample_primary upsample_primary' : PyVal)
    (left_pad_source left_pad_target max_source_positions
     max_target_positions prepend_bos load_alignments truncate_source : PyVal)
    (append_source_id : bool) (trg_prepend : PyVal) :
  load_langpair_sumdataset fs data_path split src src_dict src_lang
    tgt tgt_dict tgt_lang false dataset_impl upsample_primary
    left_pad_source left_pad_target max_source_positions max_target_positions
    prepend_bos load_alignments truncate_source append_source_id trg_prepend
  = load_langpair_sumdataset fs data_path split src src_dict src_lang
      tgt tgt_dict tgt_lang false dataset_impl upsample_primary'
      left_pad_source left_pad_target max_source_positions max_target_positions
      prepend_bos load_alignments truncate_source append_source_id trg_prepend.
Proof.
  unfold load_langpair_sumdataset, load_tokens.
  destruct (load_shards fs (shard_fuel fs) data_path split src tgt false O [] [])
    as [e|[srcs tgts]|] eqn:Hloop; [done| |done].
  apply load_shards_without_combine_one in Hloop as [s ->].
  reflexivity.
Qed.
